(** * FilmleAPI: the request handlers of the three server revisions

    The repository holds three revisions of one Express server:
    - [src/unnamed/part_000]: [GET /mystery_movie], reading the [movie] column;
    - [src/server.js]: [GET /mystery_movie] with the table-casing retry, the
      full-table scan and the four candidate movie-id columns;
    - [src/unnamed/part_001]: [fetchMovieDetails] and the three [/api] routes.

    The handlers are embedded as functions in a small effect monad: the
    database, the metadata service, the clock and the order in which two
    concurrent requests settle are fields of an environment, every outbound
    call is appended to a trace, and a JavaScript exception is a result of its
    own, so that [try]/[catch] is a function of the monad. *)

From Stdlib Require Import ZArith List String Ascii Bool Lia DecimalString.
Import ListNotations.
Open Scope string_scope.
Open Scope Z_scope.

(** ** JavaScript values *)

Module JS.

(** A value as [JSON.parse] produces it, and [undefined].  A number is an
    integer here: the handlers only test numbers for zero, print them into a
    URL and hand them to [Date]; numbers with a fraction have no value here,
    and an integer stands for a JavaScript number only while it is a safe
    integer, of absolute value below 2^53.  A string is its UTF-8 bytes.  The
    property list of an object is kept in the order [Object.keys] reports. *)
#[warnings="-register-all"]
Inductive value : Type :=
| VUndefined
| VNull
| VBool (b : bool)
| VNum (n : Z)
| VStr (s : string)
| VArr (items : list value)
| VObj (props : list (string * value)).

Definition object := list (string * value).

(** [!!v] *)
Definition truthy (v : value) : bool :=
  match v with
  | VUndefined | VNull => false
  | VBool b => b
  | VNum n => negb (n =? 0)
  | VStr s => negb (s =? "")%string
  | VArr _ | VObj _ => true
  end.

(** [a || b] *)
Definition or_else (a b : value) : value := if truthy a then a else b.

(** [o.k] on an object: the own property when there is one, else [undefined]. *)
Fixpoint lookup (o : object) (k : string) : value :=
  match o with
  | [] => VUndefined
  | (k', v) :: o' => if (k' =? k)%string then v else lookup o' k
  end.

(** [k in o] for own properties. *)
Fixpoint has_key (o : object) (k : string) : bool :=
  match o with
  | [] => false
  | (k', _) :: o' => (k' =? k)%string || has_key o' k
  end.

(** [Object.keys(o)] *)
Definition keys (o : object) : list string := map fst o.

(** [v.k] on any value: [None] is the [TypeError] raised on [null] and
    [undefined].  No property name read by the handlers is an array index or a
    method of a primitive, so outside objects only [length] is answered. *)
Definition get (v : value) (k : string) : option value :=
  match v with
  | VUndefined | VNull => None
  | VObj o => Some (lookup o k)
  | VArr l => Some (if (k =? "length")%string then VNum (Z.of_nat (List.length l)) else VUndefined)
  | VStr s => Some (if (k =? "length")%string then VNum (Z.of_nat (String.length s)) else VUndefined)
  | VBool _ | VNum _ => Some VUndefined
  end.

(** [v?.k] *)
Definition get_opt (v : value) (k : string) : value :=
  match get v k with
  | Some x => x
  | None => VUndefined
  end.

(** [o[k] = v] in an object literal: an existing key keeps its place, a new
    one goes last (none of the keys written by the handlers is an index). *)
Fixpoint set (o : object) (k : string) (v : value) : object :=
  match o with
  | [] => [(k, v)]
  | (k', v') :: o' => if (k' =? k)%string then (k', v) :: o' else (k', v') :: set o' k v
  end.

Definition string_of_nat (n : nat) : string := NilZero.string_of_uint (Nat.to_uint n).

Fixpoint indexed {A : Type} (f : A -> value) (i : nat) (l : list A) : object :=
  match l with
  | [] => []
  | x :: l' => (string_of_nat i, f x) :: indexed f (S i) l'
  end.

(** [{...v}]: the own enumerable properties of [v].  For a string these are
    its characters, one per byte here: as in JavaScript for an ASCII string. *)
Definition spread (v : value) : object :=
  match v with
  | VObj o => o
  | VArr l => indexed (fun x => x) 0 l
  | VStr s => indexed (fun c => VStr (String c EmptyString)) 0 (list_ascii_of_string s)
  | VUndefined | VNull | VBool _ | VNum _ => []
  end.

Fixpoint join (sep : string) (l : list string) : string :=
  match l with
  | [] => ""
  | [s] => s
  | s :: l' => s ++ sep ++ join sep l'
  end.

(** [`${v}`]: the string a template literal prints for [v].  A number is
    printed with all its digits, which is what JavaScript prints for a safe
    integer; beyond 2^53 JavaScript prints the shortest form of the double. *)
Fixpoint ToString (v : value) : string :=
  match v with
  | VUndefined => "undefined"
  | VNull => "null"
  | VBool true => "true"
  | VBool false => "false"
  | VNum n => NilZero.string_of_int (Z.to_int n)
  | VStr s => s
  | VArr l =>
      join "," (map (fun x => match x with
                              | VUndefined | VNull => ""
                              | _ => ToString x
                              end) l)
  | VObj _ => "[object Object]"
  end.

(** [s.includes(sub)] *)
Fixpoint includes (s sub : string) : bool :=
  if String.prefix sub s then true
  else match s with
       | EmptyString => false
       | String _ s' => includes s' sub
       end.

(** [s.split('T')[0]] *)
Fixpoint split_T_0 (s : string) : string :=
  match s with
  | EmptyString => EmptyString
  | String c s' => if Ascii.eqb c "T" then EmptyString else String c (split_T_0 s')
  end.

End JS.
Import JS.

(** ** [Date]: from a time value to [toISOString()] *)

Module JSDate.

Definition msPerDay : Z := 86400000.

(** [TimeClip]: a time value further than 8.64e15 ms from the epoch makes an
    Invalid Date. *)
Definition TimeClip (t : Z) : option Z :=
  if Z.abs t <=? 8640000000000000 then Some t else None.

(** Year, month and day of the proleptic Gregorian calendar for a day number
    counted from 1970-01-01 ([YearFromTime], [MonthFromTime], [DateFromTime]). *)
Definition civil_from_days (day : Z) : Z * Z * Z :=
  let z := day + 719468 in
  let era := z / 146097 in
  let doe := z - era * 146097 in
  let yoe := (doe - doe / 1460 + doe / 36524 - doe / 146096) / 365 in
  let doy := doe - (365 * yoe + yoe / 4 - yoe / 100) in
  let mp := (5 * doy + 2) / 153 in
  let d := doy - (153 * mp + 2) / 5 + 1 in
  let m := if mp <? 10 then mp + 3 else mp - 9 in
  let y := yoe + era * 400 + (if m <=? 2 then 1 else 0) in
  (y, m, d).

Definition digit (n : Z) : ascii :=
  match n with
  | 0 => "0" | 1 => "1" | 2 => "2" | 3 => "3" | 4 => "4"
  | 5 => "5" | 6 => "6" | 7 => "7" | 8 => "8" | _ => "9"
  end%char.

(** The last [width] decimal digits of [n], most significant first. *)
Fixpoint pad (width : nat) (n : Z) (acc : string) : string :=
  match width with
  | O => acc
  | S w => pad w (n / 10) (String (digit (n mod 10)) acc)
  end.

(** The year of the extended ISO format: four digits from 0 to 9999, a sign
    and six digits outside. *)
Definition iso_year (y : Z) : string :=
  if (0 <=? y) && (y <=? 9999) then pad 4 y ""
  else (if y <? 0 then "-" else "+") ++ pad 6 (Z.abs y) "".

(** [new Date(t).toISOString()] for a valid time value [t]. *)
Definition iso_of_time (t : Z) : string :=
  let day := t / msPerDay in
  let ms := t mod msPerDay in
  let '(y, m, d) := civil_from_days day in
  iso_year y ++ "-" ++ pad 2 m "" ++ "-" ++ pad 2 d ""
    ++ "T" ++ pad 2 (ms / 3600000) "" ++ ":" ++ pad 2 (ms / 60000 mod 60) ""
    ++ ":" ++ pad 2 (ms / 1000 mod 60) "" ++ "." ++ pad 3 (ms mod 1000) "" ++ "Z".

Arguments iso_of_time : simpl never.

(** [toISOString()]: [None] is the [RangeError] of an Invalid Date. *)
Definition toISOString (tv : option Z) : option string :=
  match tv with
  | Some t => Some (iso_of_time t)
  | None => None
  end.

(** The time value of [new Date(v)] for one argument [v].  A number is
    clipped, a boolean or [null] is first made a number; a string, and an
    array or object through its string form, goes through [Date.parse], whose
    answer outside the ISO format is left to the engine: it is the argument
    [parse]. *)
Definition time_value (parse : value -> option Z) (v : value) : option Z :=
  match v with
  | VNum n => TimeClip n
  | VBool true => Some 1
  | VBool false | VNull => Some 0
  | VUndefined => None
  | VStr _ | VArr _ | VObj _ => parse v
  end.

End JSDate.
Import JSDate.

(** ** The outside world and the effect monad *)

Module Runtime.

(** The [error] of a database reply; the handlers read [error.message] with
    [?.], so an absent message is kept apart. *)
Record PostgrestError := { pg_message : option string }.

(** [supabase.from(t).select(c).eq(k, v).limit(n).maybeSingle()] *)
Record Query := {
  q_from : string;
  q_select : string;
  q_eq : option (string * string);
  q_limit : option nat;
  q_maybeSingle : bool
}.

(** [{ data, error }]: the two fields are read independently by the handlers
    and are independent here. *)
Record Reply (T : Type) := { data : option T; error : option PostgrestError }.
Arguments data {T} _.
Arguments error {T} _.

(** A response of the metadata service: [response.status], [response.data]. *)
Record AxiosResponse := { status : Z; rdata : value }.

(** A thrown JavaScript error: [error.message] and, when the metadata service
    answered with a status outside 2xx, [error.response]. *)
Record Error := { message : string; response : option AxiosResponse }.

(** [axios.get(url, { params })] *)
Record Request := { url : string; params : object }.

Inductive call : Type :=
| Db (q : Query)
| Http (r : Request).

Record Env := {
  (** the clock read by [new Date()] *)
  now : Z;
  (** [Date.parse] of this engine, see [time_value] *)
  date_parse : value -> option Z;
  (** [process.env.TMDB_API_KEY] *)
  TMDB_API_KEY : string;
  (** the database, for a [maybeSingle()] query and for a query of rows *)
  supabase_row : Query -> Reply object;
  supabase_rows : Query -> Reply (list object);
  (** the metadata service *)
  tmdb : Request -> Error + AxiosResponse;
  (** of two requests in flight that both fail, whether the first one given
      to [Promise.all] is the first to reject *)
  first_rejects_first : bool
}.

Inductive result (A : Type) : Type :=
| Return (a : A)
| Throw (e : Error).
Arguments Return {A} a.
Arguments Throw {A} e.

(** A computation reads the environment and extends the trace of calls. *)
Definition Eff (A : Type) : Type := Env -> list call -> result A * list call.

Definition ret {A : Type} (a : A) : Eff A := fun _ t => (Return a, t).

Definition throw {A : Type} (e : Error) : Eff A := fun _ t => (Throw e, t).

Definition bind {A B : Type} (m : Eff A) (k : A -> Eff B) : Eff B :=
  fun env t =>
    match m env t with
    | (Return a, t') => k a env t'
    | (Throw e, t') => (Throw e, t')
    end.

(** [try { m } catch (error) { h error }] *)
Definition try_catch {A : Type} (m : Eff A) (h : Error -> Eff A) : Eff A :=
  fun env t =>
    match m env t with
    | (Return a, t') => (Return a, t')
    | (Throw e, t') => h e env t'
    end.

Definition ask : Eff Env := fun env t => (Return env, t).

Definition lift {A : Type} (r : result A) : Eff A := fun _ t => (r, t).

Definition await_row (q : Query) : Eff (Reply object) :=
  fun env t => (Return (supabase_row env q), (t ++ [Db q])%list).

Definition await_rows (q : Query) : Eff (Reply (list object)) :=
  fun env t => (Return (supabase_rows env q), (t ++ [Db q])%list).

(** [await axios.get(...)] *)
Definition axios_get (r : Request) : Eff AxiosResponse :=
  fun env t =>
    match tmdb env r with
    | inr resp => (Return resp, (t ++ [Http r])%list)
    | inl e => (Throw e, (t ++ [Http r])%list)
    end.

(** [await Promise.all([axios.get(r1), axios.get(r2)])]: both requests are
    sent before anything is awaited; the promise rejects with the reason of
    the first request to reject. *)
Definition promise_all (r1 r2 : Request) : Eff (AxiosResponse * AxiosResponse) :=
  fun env t =>
    let t' := (t ++ [Http r1; Http r2])%list in
    match tmdb env r1, tmdb env r2 with
    | inr a, inr b => (Return (a, b), t')
    | inl e, inr _ => (Throw e, t')
    | inr _, inl e => (Throw e, t')
    | inl e1, inl e2 => (Throw (if first_rejects_first env then e1 else e2), t')
    end.

Definition run {A : Type} (m : Eff A) (env : Env) : result A * list call := m env [].

(** What [res.status(code).json(body)] sends; [body] is the object handed to
    [res.json]. *)
Record Response := { code : Z; body : object }.

Definition json (c : Z) (b : object) : Response := {| code := c; body := b |}.

Definition TypeError (what prop : string) : Error :=
  {| message := "Cannot read properties of " ++ what ++ " (reading '" ++ prop ++ "')";
     response := None |}.

Definition RangeError : Error :=
  {| message := "Invalid time value"; response := None |}.

(** [v.k] where [v] may be [null] or [undefined]. *)
Definition member (v : value) (k : string) : Eff value :=
  match get v k with
  | Some x => ret x
  | None => throw (TypeError (ToString v) k)
  end.

(** [new Date().toISOString().split('T')[0]] *)
Definition today : Eff string :=
  fun env t =>
    match toISOString (TimeClip (now env)) with
    | Some iso => (Return (split_T_0 iso), t)
    | None => (Throw RangeError, t)
    end.

Definition TMDB_BASE_URL : string := "https://api.themoviedb.org/3".

Definition of_message (m : option string) : value :=
  match m with
  | Some s => VStr s
  | None => VUndefined
  end.

End Runtime.
Import Runtime.

Declare Scope eff_scope.
Delimit Scope eff_scope with eff.
Notation "x <- m ;; k" := (bind m (fun x => k))
  (at level 61, m at next level, right associativity) : eff_scope.
Notation "' p <- m ;; k" := (bind m (fun p => k))
  (at level 61, p pattern, m at next level, right associativity) : eff_scope.
Open Scope eff_scope.

(** ** [src/unnamed/part_000]: the first [GET /mystery_movie] *)

Module Part000.

(** The [catch] clause shared by the handlers of part_000 and part_001. *)
Definition on_error (failed : string) (error : Error) : Eff Response :=
  match response error with
  | Some r =>
      ret (json (status r)
             [("error", VStr failed);
              ("details", or_else (get_opt (rdata r) "status_message") (VStr (message error)))])
  | None =>
      ret (json 500
             [("error", VStr "Internal server error");
              ("details", VStr (message error))])
  end.

Definition mystery_movie : Eff Response :=
  try_catch
    (currentDate <- today ;;
     env <- ask ;;
     r <- await_row {| q_from := "calendar"; q_select := "movie";
                       q_eq := Some ("date", currentDate);
                       q_limit := None; q_maybeSingle := true |} ;;
     match error r with
     | Some e =>
         ret (json 500 [("error", VStr "Database error");
                        ("details", of_message (pg_message e))])
     | None =>
         match data r with
         | None => ret (json 404 [("error", VStr "No movie found for today")])
         | Some data =>
             if negb (truthy (lookup data "movie")) then
               ret (json 404 [("error", VStr "No movie found for today")])
             else
               let movieId := lookup data "movie" in
               tmdbResponse <- axios_get
                 {| url := TMDB_BASE_URL ++ "/movie/" ++ ToString movieId;
                    params := [("api_key", VStr (TMDB_API_KEY env));
                               ("language", VStr "en-US")] |} ;;
               ret (json 200 [("date", VStr currentDate);
                              ("movie", rdata tmdbResponse)])
         end
     end)
    (on_error "Failed to fetch movie from TheMovieDB").

End Part000.

(** ** [src/server.js]: [GET /mystery_movie] with its fallbacks *)

Module ServerJs.

(** [typeof v] *)
Definition typeof (v : value) : string :=
  match v with
  | VUndefined => "undefined"
  | VNull | VArr _ | VObj _ => "object"
  | VBool _ => "boolean"
  | VNum _ => "number"
  | VStr _ => "string"
  end.

(** [error.message?.includes('relation') || error.message?.includes('does not exist')] *)
Definition missing_relation (e : PostgrestError) : bool :=
  match pg_message e with
  | Some m => includes m "relation" || includes m "does not exist"
  | None => false
  end.

Definition primary_query (table currentDate : string) : Query :=
  {| q_from := table; q_select := "*"; q_eq := Some ("date", currentDate);
     q_limit := None; q_maybeSingle := true |}.

Definition all_query (lim : option nat) : Query :=
  {| q_from := "calendar"; q_select := "*"; q_eq := None;
     q_limit := lim; q_maybeSingle := false |}.

(** The callback of [allData.find]. *)
Definition entry_matches (parse : value -> option Z) (currentDate : string)
    (entry : object) : result bool :=
  let entryDate := lookup entry "date" in
  if negb (truthy entryDate) then Return false
  else
    match entryDate with
    | VStr s => Return (split_T_0 s =? currentDate)%string
    | _ =>
        match toISOString (time_value parse entryDate) with
        | Some iso => Return (split_T_0 iso =? currentDate)%string
        | None => Throw RangeError
        end
    end.

(** [allData.find(callback)]: the first entry the callback accepts,
    [undefined] when there is none; an exception of the callback ends the
    search. *)
Fixpoint find (p : object -> result bool) (l : list object) : result (option object) :=
  match l with
  | [] => Return None
  | entry :: l' =>
      match p entry with
      | Throw e => Throw e
      | Return true => Return (Some entry)
      | Return false => find p l'
      end
  end.

(** The primary query and, for a missing relation, the retry on [Calendar]. *)
Definition lookup_today (currentDate : string) : Eff (Reply object) :=
  r <- await_row (primary_query "calendar" currentDate) ;;
  match error r with
  | Some e =>
      if missing_relation e then
        r2 <- await_row (primary_query "Calendar" currentDate) ;;
        match error r2 with
        | None => ret {| data := data r2; error := None |}
        | Some _ => ret r
        end
      else ret r
  | None => ret r
  end.

Definition database_error (e : PostgrestError) : Response :=
  json 500 [("error", VStr "Database error");
            ("details", or_else (of_message (pg_message e)) (VStr "Unknown error"))].

(** The scan of all rows, entered when [!data && !error].  The outer [inl] is
    the response of the early [return]. *)
Definition scan_all (currentDate : string) : Eff (Response + option object) :=
  env <- ask ;;
  all <- await_rows (all_query None) ;;
  match error all with
  | Some allError => ret (inl (database_error allError))
  | None =>
      match data all with
      | Some (e0 :: rest) =>
          found <- lift (find (entry_matches (date_parse env) currentDate) (e0 :: rest)) ;;
          ret (inr found)
      | Some [] | None => ret (inr None)
      end
  end.

(** The body of the 404 answer. *)
Definition not_found (currentDate : string) (allData : option (list object)) : Response :=
  json 404
    [("error", VStr "No movie found for today");
     ("searchedDate", VStr currentDate);
     ("debug", VObj
        [("totalEntries",
          match allData with
          | Some l => or_else (VNum (Z.of_nat (List.length l))) (VNum 0)
          | None => VNum 0
          end);
         ("sampleEntries",
          match allData with
          | Some l => VArr (map VObj (firstn 3 l))
          | None => VArr []
          end);
         ("entryDates",
          match allData with
          | Some l => VArr (map (fun e => VObj [("date", lookup e "date");
                                                ("type", VStr (typeof (lookup e "date")))]) l)
          | None => VArr []
          end)])].

(** [data.movie_id || data.movieId || data.movieid || data.movie] *)
Definition movieId_of (data : object) : value :=
  or_else (or_else (or_else (lookup data "movie_id") (lookup data "movieId"))
             (lookup data "movieid"))
    (lookup data "movie").

Definition on_error (error : Error) : Eff Response :=
  match response error with
  | Some r =>
      ret (json (status r)
             [("error", VStr "Failed to fetch movie from TheMovieDB");
              ("details",
               or_else (or_else (get_opt (rdata r) "status_message") (VStr (message error)))
                 (VStr "Unknown error"))])
  | None =>
      ret (json 500
             [("error", VStr "Internal server error");
              ("details", or_else (VStr (message error)) (VStr "Unknown error"))])
  end.

(** From the movie-id extraction to the answer. *)
Definition respond (currentDate : string) (data : object) : Eff Response :=
  env <- ask ;;
  let movieId := movieId_of data in
  if negb (truthy movieId) then
    ret (json 500 [("error", VStr "Movie ID column not found");
                   ("availableFields", VArr (map VStr (keys data)))])
  else
    tmdbResponse <- axios_get
      {| url := TMDB_BASE_URL ++ "/movie/" ++ ToString movieId;
         params := [("api_key", VStr (TMDB_API_KEY env)); ("language", VStr "en-US")] |} ;;
    ret (json 200 [("date", VStr currentDate); ("movie", rdata tmdbResponse)]).

(** After the scan: [if (error) ...], [if (!data) ...], then the answer. *)
Definition finish (currentDate : string) (data : option object)
    (error : option PostgrestError) : Eff Response :=
  match error with
  | Some e => ret (database_error e)
  | None =>
      match data with
      | None =>
          dbg <- await_rows (all_query (Some 10%nat)) ;;
          ret (not_found currentDate (Runtime.data dbg))
      | Some row => respond currentDate row
      end
  end.

(** Everything up to [if (error)]: the lookup and, when [!data && !error],
    the scan.  The result is the pair of [data] and [error] at that point. *)
Definition select_entry (currentDate : string)
    : Eff (Response + option object * option PostgrestError) :=
  r <- lookup_today currentDate ;;
  match data r, error r with
  | None, None =>
      s <- scan_all currentDate ;;
      match s with
      | inl early => ret (inl early)
      | inr found => ret (inr (found, None))
      end
  | d, e => ret (inr (d, e))
  end.

Definition mystery_movie : Eff Response :=
  try_catch
    (currentDate <- today ;;
     s <- select_entry currentDate ;;
     match s with
     | inl early => ret early
     | inr (data, error) => finish currentDate data error
     end)
    on_error.

End ServerJs.

(** ** [src/unnamed/part_001]: [fetchMovieDetails] and the [/api] routes *)

Module Part001.

Definition language : string := "pl-PL".

Definition tmdb_params (env : Env) : object :=
  [("api_key", VStr (TMDB_API_KEY env)); ("language", VStr language)].

Definition details_request (env : Env) (movieId : value) : Request :=
  {| url := TMDB_BASE_URL ++ "/movie/" ++ ToString movieId;
     params := tmdb_params env |}.

Definition credits_request (env : Env) (movieId : value) : Request :=
  {| url := TMDB_BASE_URL ++ "/movie/" ++ ToString movieId ++ "/credits";
     params := tmdb_params env |}.

Definition fetchMovieDetails (movieId : value) : Eff object :=
  try_catch
    (env <- ask ;;
     ' (movieResponse, creditsResponse) <-
         promise_all (details_request env movieId) (credits_request env movieId) ;;
     cast <- member (rdata creditsResponse) "cast" ;;
     crew <- member (rdata creditsResponse) "crew" ;;
     ret (set (set (spread (rdata movieResponse)) "cast" cast) "crew" crew))
    (fun error => throw error).

Definition on_error := Part000.on_error.

Definition api_mystery_movie : Eff Response :=
  try_catch
    (currentDate <- today ;;
     r <- await_row {| q_from := "calendar"; q_select := "*";
                       q_eq := Some ("date", currentDate);
                       q_limit := None; q_maybeSingle := true |} ;;
     match error r with
     | Some e =>
         ret (json 500 [("error", VStr "Database error");
                        ("details", of_message (pg_message e))])
     | None =>
         match data r with
         | None => ret (json 404 [("error", VStr "No movie found for today")])
         | Some data =>
             if negb (truthy (lookup data "movie")) then
               ret (json 404 [("error", VStr "No movie found for today")])
             else
               let movieId := lookup data "movie" in
               movieDetails <- fetchMovieDetails movieId ;;
               ret (json 200 [("date", VStr currentDate);
                              ("quote_en", lookup data "quote_en");
                              ("quote_pl", lookup data "quote_pl");
                              ("description", lookup data "description");
                              ("movie", VObj movieDetails)])
         end
     end)
    (on_error "Failed to fetch movie from TheMovieDB").

Definition search_request (env : Env) (query : value) : Request :=
  {| url := TMDB_BASE_URL ++ "/search/movie";
     params := [("api_key", VStr (TMDB_API_KEY env));
                ("query", query);
                ("language", VStr language)] |}.

(** [query] is [req.query.query], [undefined] when the parameter is absent. *)
Definition api_search (query : value) : Eff Response :=
  try_catch
    (if negb (truthy query) then
       ret (json 400 [("error", VStr "Query parameter is required");
                      ("example", VStr "/search?query=batman")])
     else
       env <- ask ;;
       tmdbResponse <- axios_get (search_request env query) ;;
       results <- member (rdata tmdbResponse) "results" ;;
       total_results <- member (rdata tmdbResponse) "total_results" ;;
       page <- member (rdata tmdbResponse) "page" ;;
       total_pages <- member (rdata tmdbResponse) "total_pages" ;;
       ret (json 200 [("query", query);
                      ("results", results);
                      ("total_results", total_results);
                      ("page", page);
                      ("total_pages", total_pages)]))
    (on_error "Failed to search movies from TheMovieDB").

(** [req.params.movie_id]: a string, or [undefined]. *)
Definition param (p : option string) : value :=
  match p with
  | Some s => VStr s
  | None => VUndefined
  end.

Definition api_movie (movie_id : option string) : Eff Response :=
  try_catch
    (let movieId := param movie_id in
     if negb (truthy movieId) then
       ret (json 400 [("error", VStr "Movie ID is required");
                      ("example", VStr "/movie/550")])
     else
       movieDetails <- fetchMovieDetails movieId ;;
       ret (json 200 [("movie", VObj movieDetails)]))
    (on_error "Failed to fetch movie from TheMovieDB").

End Part001.

(** ** A sample world, for running the handlers *)

Module Sample.

Definition fight_club : value :=
  VObj [("id", VNum 550); ("title", VStr "Fight Club")].

Definition credits : value :=
  VObj [("id", VNum 550);
        ("cast", VArr [VObj [("name", VStr "Edward Norton")]]);
        ("crew", VArr [VObj [("name", VStr "David Fincher")]])].

Definition not_found_error : Error :=
  {| message := "Request failed with status code 404";
     response := Some {| status := 404;
                         rdata := VObj [("status_message",
                                         VStr "The resource you requested could not be found.")] |} |}.

Definition network_error : Error :=
  {| message := "getaddrinfo ENOTFOUND api.themoviedb.org"; response := None |}.

Definition search_page : value :=
  VObj [("page", VNum 1); ("results", VArr [fight_club]);
        ("total_pages", VNum 1); ("total_results", VNum 1)].

(** The metadata service knows movie 550 and answers every search. *)
Definition service (r : Request) : Error + AxiosResponse :=
  if (url r =? "https://api.themoviedb.org/3/movie/550")%string then
    inr {| status := 200; rdata := fight_club |}
  else if (url r =? "https://api.themoviedb.org/3/movie/550/credits")%string then
    inr {| status := 200; rdata := credits |}
  else if (url r =? "https://api.themoviedb.org/3/search/movie")%string then
    inr {| status := 200; rdata := search_page |}
  else inl not_found_error.

Definition no_reply {T : Type} : Reply T := {| data := None; error := None |}.

Definition relation_error : PostgrestError :=
  {| pg_message := Some "relation public.calendar does not exist" |}.

(** 2024-01-15T12:00:00.000Z *)
Definition noon : Z := 1705320000000.

Definition world (row : Query -> Reply object) (rows : Query -> Reply (list object)) : Env :=
  {| now := noon;
     date_parse := fun _ => None;
     TMDB_API_KEY := "k";
     supabase_row := row;
     supabase_rows := rows;
     tmdb := service;
     first_rejects_first := true |}.

(** Another day, another key, another database, the other settling order;
    the same metadata service. *)
Definition elsewhere : Env :=
  {| now := 0;
     date_parse := fun _ => Some 0;
     TMDB_API_KEY := "other";
     supabase_row := fun _ => {| data := None; error := Some relation_error |};
     supabase_rows := fun _ => no_reply;
     tmdb := service;
     first_rejects_first := false |}.

(** A database whose table is named [Calendar]. *)
Definition miscased : Env :=
  world (fun q => if (q_from q =? "calendar")%string
                  then {| data := None; error := Some relation_error |}
                  else {| data := Some [("date", VStr "2024-01-15"); ("movie", VNum 550)];
                          error := None |})
        (fun _ => no_reply).

(** A database where neither casing of the table exists. *)
Definition no_table : Env :=
  world (fun q => if (q_from q =? "calendar")%string
                  then {| data := None; error := Some relation_error |}
                  else {| data := None;
                          error := Some {| pg_message := Some "permission denied" |} |})
        (fun _ => no_reply).



(** A date column that holds a JSON object in its first row. *)
Definition unreadable : Env :=
  world (fun _ => no_reply)
        (fun _ => {| data := Some [[("date", VObj []); ("movie", VNum 1)];
                                   [("date", VStr "2024-01-15"); ("movie", VNum 550)]];
                     error := None |}).

(** A database whose row of the day is [row], whatever the table. *)
Definition with_row (row : object) : Env :=
  world (fun _ => {| data := Some row; error := None |}) (fun _ => no_reply).

End Sample.

(** ** The vocabulary of the specification *)

Module Spec.

(** The clock shows a time [Date] can represent. *)
Definition valid_clock (env : Env) : Prop := Z.abs (now env) <= 8640000000000000.

(** Today's date, [YYYY-MM-DD], as the handlers compute it. *)
Definition date_of (env : Env) : string := split_T_0 (iso_of_time (now env)).

(** The field names tried for the movie identifier, in priority order. *)
Definition candidates : list string := ["movie_id"; "movieId"; "movieid"; "movie"].

(** The first of [names] whose field of [o] is present and truthy. *)
Fixpoint first_truthy (o : object) (names : list string) : option value :=
  match names with
  | [] => None
  | k :: ks => if truthy (lookup o k) then Some (lookup o k) else first_truthy o ks
  end.

(** The date of an entry brought to [YYYY-MM-DD]: a string is cut at its
    first [T]; anything else is made a [Date], printed in the ISO format and
    cut.  [None] when [Date] cannot represent it. *)
Definition normalized_date (parse : value -> option Z) (v : value) : option string :=
  match v with
  | VStr s => Some (split_T_0 s)
  | _ => option_map split_T_0 (toISOString (time_value parse v))
  end.

(** An entry matches today when its date field is there (and truthy) and its
    normalized date is today's date. *)
Definition matches_today (parse : value -> option Z) (currentDate : string)
    (entry : object) : bool :=
  truthy (lookup entry "date") &&
  match normalized_date parse (lookup entry "date") with
  | Some d => (d =? currentDate)%string
  | None => false
  end.

(** The date of the entry can be normalized. *)
Definition convertible (parse : value -> option Z) (entry : object) : Prop :=
  truthy (lookup entry "date") = true ->
  normalized_date parse (lookup entry "date") <> None.

(** [s] contains [sub]. *)
Definition contains (s sub : string) : Prop :=
  exists pre post, s = pre ++ sub ++ post.

(** Four digits, a dash, two digits, a dash, two digits. *)
Definition is_digit (c : ascii) : bool :=
  let n := nat_of_ascii c in (48 <=? n)%nat && (n <=? 57)%nat.

Definition is_YYYY_MM_DD (s : string) : bool :=
  match list_ascii_of_string s with
  | [y1; y2; y3; y4; d1; m1; m2; d2; a1; a2] =>
      is_digit y1 && is_digit y2 && is_digit y3 && is_digit y4
      && Ascii.eqb d1 "-" && is_digit m1 && is_digit m2
      && Ascii.eqb d2 "-" && is_digit a1 && is_digit a2
  | _ => false
  end.

(** The reason [Promise.all] rejects with when at least one request fails. *)
Definition rejection (env : Env) (d c : Error + AxiosResponse) : option Error :=
  match d, c with
  | inr _, inr _ => None
  | inl e, inr _ => Some e
  | inr _, inl e => Some e
  | inl e1, inl e2 => Some (if first_rejects_first env then e1 else e2)
  end.

(** The reply has neither a row nor an error: [!data && !error]. *)
Definition no_row_no_error (r : Reply object) : bool :=
  match data r, error r with
  | None, None => true
  | _, _ => false
  end.

(** The primary query of server.js failed on a missing relation. *)
Definition retry_needed (env : Env) (currentDate : string) : bool :=
  match error (supabase_row env (ServerJs.primary_query "calendar" currentDate)) with
  | Some e => ServerJs.missing_relation e
  | None => false
  end.

(** The query that completed without error, the primary one or the retry
    made for it, yielded no row. *)
Definition scan_needed (env : Env) (currentDate : string) : bool :=
  no_row_no_error (supabase_row env (ServerJs.primary_query "calendar" currentDate))
  || (retry_needed env currentDate
      && no_row_no_error (supabase_row env (ServerJs.primary_query "Calendar" currentDate))).

(** [data] and [error] after the primary query and its retry. *)
Definition settled (env : Env) (currentDate : string) : Reply object :=
  let r := supabase_row env (ServerJs.primary_query "calendar" currentDate) in
  let r2 := supabase_row env (ServerJs.primary_query "Calendar" currentDate) in
  if retry_needed env currentDate then
    match error r2 with
    | None => {| data := data r2; error := None |}
    | Some _ => r
    end
  else r.


(** The [movie] field of an answer, [undefined] when there is none. *)
Definition movie_payload (r : result Response) : value :=
  match r with
  | Return resp => lookup (body resp) "movie"
  | Throw _ => VUndefined
  end.

(** The answer of a handler and the calls it made. *)
Definition answer (h : Eff Response) (env : Env) : result Response := fst (run h env).
Definition calls (h : Eff Response) (env : Env) : list call := snd (run h env).

End Spec.
Import Spec.

(** ** [src/server.js]: configuration and start *)

Module Startup.

(** [process.env.NAME]: a string, or [undefined]. *)
Definition of_env (v : option string) : value :=
  match v with
  | Some s => VStr s
  | None => VUndefined
  end.

Definition SUPABASE_MISSING : string :=
  "Error: SUPABASE_URL and SUPABASE_ANON_KEY must be set in environment variables".

Definition TMDB_MISSING : string :=
  "Error: TMDB_API_KEY must be set in environment variables".

(** How the module body ends: [console.error(logged); process.exit(code)],
    an exception of [createClient], or [app.listen(PORT)] with the key the
    handlers will send. *)
Inductive outcome : Type :=
| Exit (code : Z) (logged : string)
| Crash
| Listen (PORT : value) (key : value).

(** The top level of server.js, from [dotenv.config()] to [app.listen].
    [createClient] is the constructor of the database client: [false] when it
    throws on the address or key it is given. *)
Definition main (process_env : string -> option string)
    (createClient : value -> value -> bool) : outcome :=
  let PORT := or_else (of_env (process_env "PORT")) (VNum 3000) in
  let supabaseUrl := of_env (process_env "SUPABASE_URL") in
  let supabaseKey := of_env (process_env "SUPABASE_ANON_KEY") in
  if negb (truthy supabaseUrl) || negb (truthy supabaseKey) then
    Exit 1 SUPABASE_MISSING
  else if negb (createClient supabaseUrl supabaseKey) then Crash
  else
    let key := of_env (process_env "TMDB_API_KEY") in
    if negb (truthy key) then Exit 1 TMDB_MISSING
    else Listen PORT key.

End Startup.

(** ** [src/server.js]: [GET /test-db] *)

Module TestDb.

(** [supabase.from('calendar').select('*', { count: 'exact' }).limit(5)].
    [Query] has no field for the [count] option: the query is recorded with
    its table, columns and limit. *)
Definition counting_query : Query :=
  {| q_from := "calendar"; q_select := "*"; q_eq := None;
     q_limit := Some 5%nat; q_maybeSingle := false |}.

Definition of_rows (d : option (list object)) : value :=
  match d with
  | Some l => VArr (map VObj l)
  | None => VNull
  end.

Definition of_count (c : option Z) : value :=
  match c with
  | Some n => VNum n
  | None => VNull
  end.

(** [error?.message] *)
Definition message_of (e : option PostgrestError) : value :=
  match e with
  | Some e => of_message (pg_message e)
  | None => VUndefined
  end.

(** The handler.  [data] and [error] are those the database gives for the
    query; [count], which the environment does not hold, is the argument. *)
Definition test_db (count : option Z) : Eff Response :=
  try_catch
    (r <- await_rows counting_query ;;
     ret (json 200 [("connected", VBool true);
                    ("error", or_else (message_of (error r)) VNull);
                    ("rowCount", of_count count);
                    ("sampleData", of_rows (data r));
                    ("tableName", VStr "calendar")]))
    (fun err => ret (json 500 [("connected", VBool false);
                               ("error", VStr (message err))])).

End TestDb.

(** ** More vocabulary *)

Module Facts.

(** The requests to the metadata service among the calls. *)
Fixpoint http_requests (t : list call) : list Request :=
  match t with
  | [] => []
  | Http r :: t' => r :: http_requests t'
  | Db _ :: t' => http_requests t'
  end.

(** The request of the legacy [GET /mystery_movie]. *)
Definition legacy_request (env : Env) (movieId : value) : Request :=
  {| url := TMDB_BASE_URL ++ "/movie/" ++ ToString movieId;
     params := [("api_key", VStr (TMDB_API_KEY env)); ("language", VStr "en-US")] |}.

(** The calendar query of part_000 and of part_001. *)
Definition calendar_query (columns currentDate : string) : Query :=
  {| q_from := "calendar"; q_select := columns; q_eq := Some ("date", currentDate);
     q_limit := None; q_maybeSingle := true |}.

(** The reply has a row whose [movie] field is truthy, and no error. *)
Definition has_movie (r : Reply object) : bool :=
  match error r, data r with
  | None, Some row => truthy (lookup row "movie")
  | _, _ => false
  end.

(** The date part of [toISOString()]. *)
Definition iso_date (t : Z) : string :=
  let '(y, m, d) := civil_from_days (t / msPerDay) in
  iso_year y ++ "-" ++ pad 2 m "" ++ "-" ++ pad 2 d "".


(** The request is addressed to the metadata service, with the configured key
    and the given language. *)
Definition well_formed (env : Env) (lang : string) (r : Request) : Prop :=
  (exists path, url r = TMDB_BASE_URL ++ path)
  /\ lookup (params r) "api_key" = VStr (TMDB_API_KEY env)
  /\ lookup (params r) "language" = VStr lang.

End Facts.
Import Facts.

(** ** What [res.json] puts on the wire *)

Module Wire.

(** The value a client reads back from [JSON.stringify(v)]: a property whose
    value is [undefined] is left out, an [undefined] array item becomes
    [null]. *)
Fixpoint serialize (v : value) : value :=
  match v with
  | VArr l =>
      VArr (map (fun x => match x with
                          | VUndefined => VNull
                          | _ => serialize x
                          end) l)
  | VObj o =>
      VObj (flat_map (fun kv => match kv with
                                | (_, VUndefined) => []
                                | (k, x) => [(k, serialize x)]
                                end) o)
  | _ => v
  end.

(** The properties of an object that are sent. *)
Definition sent_fields (o : object) : object :=
  flat_map (fun kv => match kv with
                      | (_, VUndefined) => []
                      | (k, x) => [(k, serialize x)]
                      end) o.

(** The JSON body of a response. *)
Definition sent (r : Response) : object := sent_fields (body r).

Definition defined (v : value) : bool :=
  match v with
  | VUndefined => false
  | _ => true
  end.

End Wire.
Import Wire.

(** ** More sample worlds *)

Module World.



(** An empty database and a metadata service with one answer to everything. *)
Definition always (x : Error + AxiosResponse) : Env :=
  {| now := Sample.noon;
     date_parse := fun _ => None;
     TMDB_API_KEY := "k";
     supabase_row := fun _ => Sample.no_reply;
     supabase_rows := fun _ => Sample.no_reply;
     tmdb := fun _ => x;
     first_rejects_first := true |}.

(** An empty database. *)
Definition empty : Env := Sample.world (fun _ => Sample.no_reply) (fun _ => Sample.no_reply).

End World.

(** ** Basic facts *)

Ltac eff :=
  unfold answer, calls, run, bind, ret, throw, try_catch, ask, lift,
    await_row, await_rows, axios_get, promise_all, member in *.

Lemma today_valid (env : Env) (t : list call) :
  valid_clock env -> today env t = (Return (date_of env), t).
Proof.
  unfold valid_clock, today, date_of, TimeClip. intros H.
  apply Z.leb_le in H. rewrite H. reflexivity.
Qed.

Lemma today_cases (env : Env) (t : list call) :
  today env t = (Return (date_of env), t) \/ today env t = (Throw RangeError, t).
Proof.
  unfold today, date_of, TimeClip.
  destruct (Z.abs (now env) <=? 8640000000000000); auto.
Qed.


Lemma has_key_set (o : object) (k k' : string) (v : value) :
  has_key (set o k v) k' = (k =? k')%string || has_key o k'.
Proof.
  induction o as [|[k0 v0] o IH]; simpl.
  - rewrite orb_false_r. reflexivity.
  - destruct (k0 =? k)%string eqn:E; simpl.
    + apply String.eqb_eq in E. subst k0.
      destruct (k =? k')%string; reflexivity.
    + rewrite IH. destruct (k0 =? k')%string, (k =? k')%string; reflexivity.
Qed.

Lemma lookup_set_same (o : object) (k : string) (v : value) :
  lookup (set o k v) k = v.
Proof.
  induction o as [|[k0 v0] o IH]; simpl.
  - rewrite String.eqb_refl. reflexivity.
  - destruct (k0 =? k)%string eqn:E; simpl; rewrite E; auto.
Qed.

Lemma lookup_set_other (o : object) (k k' : string) (v : value) :
  k <> k' -> lookup (set o k v) k' = lookup o k'.
Proof.
  intros Hne. induction o as [|[k0 v0] o IH]; simpl.
  - apply String.eqb_neq in Hne. rewrite Hne. reflexivity.
  - destruct (k0 =? k)%string eqn:E; simpl.
    + apply String.eqb_eq in E. subst k0.
      apply String.eqb_neq in Hne. rewrite Hne. reflexivity.
    + rewrite IH. reflexivity.
Qed.

(** The four-fold [||] of server.js is the first truthy candidate. *)
Lemma movieId_of_priority (data : object) :
  match first_truthy data candidates with
  | Some v => ServerJs.movieId_of data = v /\ truthy v = true
  | None => truthy (ServerJs.movieId_of data) = false
  end.
Proof.
  unfold ServerJs.movieId_of, or_else, candidates, first_truthy.
  destruct (truthy (lookup data "movie_id")) eqn:E1; simpl.
  - rewrite E1. simpl. rewrite E1. auto.
  - destruct (truthy (lookup data "movieId")) eqn:E2; simpl.
    + rewrite E2. auto.
    + destruct (truthy (lookup data "movieid")) eqn:E3; simpl.
      * auto.
      * destruct (truthy (lookup data "movie")) eqn:E4; auto.
Qed.

(** ** The movie identifier of a calendar row *)






(** The same handler does not look for the identifier under [movie_id],
    the column the README names: such a row is answered 404 too, and the
    metadata service is not asked. *)
Example api_mystery_movie_ignores_movie_id :
  first_truthy [("date", VStr "2024-01-15"); ("movie_id", VNum 550)] candidates
  = Some (VNum 550)
  /\ run Part001.api_mystery_movie
       (Sample.with_row [("date", VStr "2024-01-15"); ("movie_id", VNum 550)])
     = (Return (json 404 [("error", VStr "No movie found for today")]),
        [Db (calendar_query "*" "2024-01-15")]).
Proof.
  split; reflexivity.
Qed.

(** ** [fetchMovieDetails] *)

(** Both requests are always sent, in this order, whatever they answer. *)
Lemma fetchMovieDetails_calls (env : Env) (movieId : value) (t : list call) :
  snd (Part001.fetchMovieDetails movieId env t) =
  (t ++ [Http (Part001.details_request env movieId);
         Http (Part001.credits_request env movieId)])%list.
Proof.
  unfold Part001.fetchMovieDetails. eff.
  destruct (tmdb env (Part001.details_request env movieId)) as [e1|md],
           (tmdb env (Part001.credits_request env movieId)) as [e2|cr]; try reflexivity.
  destruct (get (rdata cr) "cast"); [|reflexivity].
  destruct (get (rdata cr) "crew"); reflexivity.
Qed.

Lemma fetchMovieDetails_rejected (env : Env) (movieId : value) (t : list call) (e : Error) :
  rejection env (tmdb env (Part001.details_request env movieId))
                (tmdb env (Part001.credits_request env movieId)) = Some e ->
  fst (Part001.fetchMovieDetails movieId env t) = Throw e.
Proof.
  unfold Part001.fetchMovieDetails, rejection. eff.
  destruct (tmdb env (Part001.details_request env movieId)) as [e1|md],
           (tmdb env (Part001.credits_request env movieId)) as [e2|cr];
    intros H; inversion H; reflexivity.
Qed.

Lemma fetchMovieDetails_resolved (env : Env) (movieId : value) (t : list call)
    (md cr : AxiosResponse) :
  tmdb env (Part001.details_request env movieId) = inr md ->
  tmdb env (Part001.credits_request env movieId) = inr cr ->
  fst (Part001.fetchMovieDetails movieId env t) =
  match get (rdata cr) "cast", get (rdata cr) "crew" with
  | Some cast, Some crew => Return (set (set (spread (rdata md)) "cast" cast) "crew" crew)
  | _, _ => Throw (TypeError (ToString (rdata cr)) "cast")
  end.
Proof.
  intros Hd Hc. unfold Part001.fetchMovieDetails. eff. rewrite Hd, Hc.
  destruct (rdata cr); reflexivity.
Qed.

(** C2.  [fetchMovieDetails] sends the details request and the credits
    request, both, before it looks at either answer.  When exactly one fails
    it throws that request's error; when both fail it throws the error of the
    one that rejected first; no object is returned in either case.  When both
    succeed with JSON objects, the result has the fields of the details
    payload, except that [cast] and [crew] are there and hold the [cast] and
    [crew] of the credits payload. *)
Theorem fetchMovieDetails_all_or_nothing (env : Env) (movieId : value) (t : list call) :
  snd (Part001.fetchMovieDetails movieId env t) =
  (t ++ [Http (Part001.details_request env movieId);
         Http (Part001.credits_request env movieId)])%list
  /\ match tmdb env (Part001.details_request env movieId),
           tmdb env (Part001.credits_request env movieId) with
     | inl e, inr _ => fst (Part001.fetchMovieDetails movieId env t) = Throw e
     | inr _, inl e => fst (Part001.fetchMovieDetails movieId env t) = Throw e
     | inl e1, inl e2 =>
         fst (Part001.fetchMovieDetails movieId env t)
         = Throw (if first_rejects_first env then e1 else e2)
     | inr md, inr cr =>
         forall details credits,
           rdata md = VObj details -> rdata cr = VObj credits ->
           exists movie,
             fst (Part001.fetchMovieDetails movieId env t) = Return movie
             /\ movie = set (set details "cast" (lookup credits "cast"))
                          "crew" (lookup credits "crew")
             /\ has_key movie "cast" = true /\ has_key movie "crew" = true
             /\ lookup movie "cast" = lookup credits "cast"
             /\ lookup movie "crew" = lookup credits "crew"
             /\ (forall k, k <> "cast" -> k <> "crew" ->
                           lookup movie k = lookup details k
                           /\ has_key movie k = has_key details k)
     end.
Proof.
  split; [apply fetchMovieDetails_calls|].
  destruct (tmdb env (Part001.details_request env movieId)) as [e1|md] eqn:Hd,
           (tmdb env (Part001.credits_request env movieId)) as [e2|cr] eqn:Hc;
    try (apply fetchMovieDetails_rejected; rewrite Hd, Hc; reflexivity).
  intros details credits Hmd Hcr.
  eexists. split; [|split; [reflexivity|]].
  - rewrite (fetchMovieDetails_resolved env movieId t md cr Hd Hc), Hmd, Hcr.
    reflexivity.
  - repeat split.
    + rewrite !has_key_set. reflexivity.
    + rewrite !has_key_set. reflexivity.
    + rewrite lookup_set_other by discriminate. apply lookup_set_same.
    + apply lookup_set_same.
    + rewrite !lookup_set_other by congruence. reflexivity.
    + rewrite !has_key_set.
      assert (E1 : ("cast" =? k)%string = false) by (apply String.eqb_neq; congruence).
      assert (E2 : ("crew" =? k)%string = false) by (apply String.eqb_neq; congruence).
      rewrite E1, E2. reflexivity.
Qed.

Lemma fetchMovieDetails_all_or_nothing_witness :
  run (Part001.fetchMovieDetails (VNum 550)) (Sample.with_row [])
  = (Return [("id", VNum 550); ("title", VStr "Fight Club");
             ("cast", VArr [VObj [("name", VStr "Edward Norton")]]);
             ("crew", VArr [VObj [("name", VStr "David Fincher")]])],
     [Http {| url := "https://api.themoviedb.org/3/movie/550";
              params := [("api_key", VStr "k"); ("language", VStr "pl-PL")] |};
      Http {| url := "https://api.themoviedb.org/3/movie/550/credits";
              params := [("api_key", VStr "k"); ("language", VStr "pl-PL")] |}]).
Proof.
  destruct (fetchMovieDetails_all_or_nothing (Sample.with_row []) (VNum 550) [])
    as [Hcalls Hres].
  destruct (Hres _ _ eq_refl eq_refl) as [movie [Hfst [Hmovie _]]].
  unfold run.
  rewrite (surjective_pairing (Part001.fetchMovieDetails (VNum 550) (Sample.with_row []) [])).
  rewrite Hfst, Hcalls, Hmovie. reflexivity.
Defined.

(** A credits answer whose payload is [null] makes [fetchMovieDetails] throw
    a [TypeError], although both requests succeeded. *)
Lemma fetchMovieDetails_null_credits (env : Env) (movieId : value) (t : list call)
    (md cr : AxiosResponse) :
  tmdb env (Part001.details_request env movieId) = inr md ->
  tmdb env (Part001.credits_request env movieId) = inr cr ->
  rdata cr = VNull ->
  fst (Part001.fetchMovieDetails movieId env t) = Throw (TypeError "null" "cast").
Proof.
  intros Hd Hc Hnull.
  rewrite (fetchMovieDetails_resolved env movieId t md cr Hd Hc), Hnull. reflexivity.
Qed.

(** ** The calendar lookup of server.js *)

Lemma prefix_append (a s : string) :
  String.prefix a s = true <-> exists post, s = a ++ post.
Proof.
  revert s. induction a as [|c a IH]; intros s; simpl.
  - split; [intros _; exists s; reflexivity | intros _; destruct s; reflexivity].
  - destruct s as [|c' s].
    + split; [discriminate | intros [post H]; discriminate].
    + simpl. destruct (ascii_dec c c') as [->|Hne].
      * split.
        -- intros H. apply IH in H. destruct H as [post H].
           exists post. subst. reflexivity.
        -- intros [post H]. apply IH. exists post. congruence.
      * split; [discriminate | intros [post H]; congruence].
Qed.

Lemma includes_unfold (s sub : string) :
  includes s sub =
  if String.prefix sub s then true
  else match s with
       | EmptyString => false
       | String _ s' => includes s' sub
       end.
Proof. destruct s; reflexivity. Qed.

(** [includes] decides [contains]. *)
Lemma includes_contains (s sub : string) :
  includes s sub = true <-> contains s sub.
Proof.
  unfold contains. split.
  - induction s as [|c s IH]; rewrite includes_unfold.
    + destruct (String.prefix sub "") eqn:E; [|discriminate].
      intros _. apply prefix_append in E. destruct E as [post E].
      exists "", post. exact E.
    + destruct (String.prefix sub (String c s)) eqn:E.
      * intros _. apply prefix_append in E. destruct E as [post E].
        exists "", post. exact E.
      * intros H. destruct (IH H) as [pre [post E']].
        exists (String c pre), post. simpl. rewrite E'. reflexivity.
  - intros [pre [post E]]. revert s E.
    induction pre as [|c pre IH]; intros s E; simpl in E; rewrite includes_unfold.
    + assert (P : String.prefix sub s = true) by (apply prefix_append; eauto).
      rewrite P. reflexivity.
    + subst s.
      destruct (String.prefix sub (String c (pre ++ sub ++ post))); [reflexivity|].
      apply IH. reflexivity.
Qed.

Lemma missing_relation_iff (e : PostgrestError) :
  ServerJs.missing_relation e = true <->
  exists m, pg_message e = Some m /\ (contains m "relation" \/ contains m "does not exist").
Proof.
  unfold ServerJs.missing_relation. destruct (pg_message e) as [m|].
  - rewrite orb_true_iff, !includes_contains. split.
    + intros H. exists m. auto.
    + intros [m' [Hm H]]. inversion Hm. subst. exact H.
  - split; [discriminate | intros [m [Hm _]]; discriminate].
Qed.

Lemma lookup_today_run (env : Env) (currentDate : string) (t : list call) :
  ServerJs.lookup_today currentDate env t =
  (Return (settled env currentDate),
   (t ++ Db (ServerJs.primary_query "calendar" currentDate)
      :: (if retry_needed env currentDate
          then [Db (ServerJs.primary_query "Calendar" currentDate)] else []))%list).
Proof.
  unfold ServerJs.lookup_today, settled, retry_needed. eff.
  destruct (error (supabase_row env (ServerJs.primary_query "calendar" currentDate)))
    as [e|]; simpl.
  - destruct (ServerJs.missing_relation e); simpl.
    + rewrite <- app_assoc. simpl.
      destruct (error (supabase_row env (ServerJs.primary_query "Calendar" currentDate)));
        reflexivity.
    + reflexivity.
  - reflexivity.
Qed.

Lemma scan_needed_settled (env : Env) (currentDate : string) :
  scan_needed env currentDate = no_row_no_error (settled env currentDate).
Proof.
  unfold scan_needed, settled, retry_needed, no_row_no_error.
  destruct (supabase_row env (ServerJs.primary_query "calendar" currentDate)) as [d e].
  destruct (supabase_row env (ServerJs.primary_query "Calendar" currentDate)) as [d2 e2].
  simpl. destruct e as [e|]; simpl.
  - destruct d; simpl; destruct (ServerJs.missing_relation e); simpl;
      destruct e2, d2; reflexivity.
  - destruct d; reflexivity.
Qed.

Lemma scan_all_calls (env : Env) (currentDate : string) (t : list call) :
  snd (ServerJs.scan_all currentDate env t) = (t ++ [Db (ServerJs.all_query None)])%list.
Proof.
  unfold ServerJs.scan_all. eff.
  destruct (error (supabase_rows env (ServerJs.all_query None))); [reflexivity|].
  destruct (data (supabase_rows env (ServerJs.all_query None))) as [[|e0 rest]|];
    try reflexivity.
  destruct (ServerJs.find _ _); reflexivity.
Qed.

Lemma select_entry_calls (env : Env) (currentDate : string) (t : list call) :
  snd (ServerJs.select_entry currentDate env t) =
  (t ++ Db (ServerJs.primary_query "calendar" currentDate)
     :: (if retry_needed env currentDate
         then [Db (ServerJs.primary_query "Calendar" currentDate)] else [])
     ++ (if scan_needed env currentDate then [Db (ServerJs.all_query None)] else []))%list.
Proof.
  rewrite scan_needed_settled.
  unfold ServerJs.select_entry, bind at 1.
  rewrite lookup_today_run. unfold no_row_no_error.
  set (t1 := (t ++ _)%list).
  assert (Ht1 : forall x, (t1 ++ x)%list =
                (t ++ Db (ServerJs.primary_query "calendar" currentDate)
                   :: (if retry_needed env currentDate
                       then [Db (ServerJs.primary_query "Calendar" currentDate)] else [])
                   ++ x)%list).
  { intros x. unfold t1. rewrite <- app_assoc. reflexivity. }
  destruct (data (settled env currentDate)) as [row|],
           (error (settled env currentDate)) as [e|];
    try (simpl; rewrite <- Ht1, app_nil_r; reflexivity).
  rewrite <- Ht1.
  pose proof (scan_all_calls env currentDate t1) as Hs.
  unfold bind.
  destruct (ServerJs.scan_all currentDate env t1) as [[[early|found]|e] t2];
    simpl in *; exact Hs.
Qed.

Lemma on_error_calls (e : Error) (env : Env) (t : list call) :
  snd (ServerJs.on_error e env t) = t.
Proof. unfold ServerJs.on_error. destruct (response e); reflexivity. Qed.

(** After the lookup the handler makes at most one more call: the sample
    query of the 404 answer, or the request to the metadata service. *)
Lemma finish_calls (currentDate : string) (d : option object) (e : option PostgrestError)
    (env : Env) (t : list call) :
  exists extra,
    snd (try_catch (ServerJs.finish currentDate d e) ServerJs.on_error env t)
    = (t ++ extra)%list
    /\ forall q, In (Db q) extra -> q = ServerJs.all_query (Some 10%nat).
Proof.
  unfold ServerJs.finish. destruct e as [e|].
  - exists []. split; [eff; simpl; rewrite app_nil_r; reflexivity | intros q []].
  - destruct d as [row|].
    + unfold ServerJs.respond. eff.
      destruct (truthy (ServerJs.movieId_of row)); simpl.
      * match goal with |- context [tmdb env ?r] => exists [Http r]; destruct (tmdb env r) end.
        -- rewrite on_error_calls. split; [reflexivity|].
           intros q [H|[]]. discriminate.
        -- split; [reflexivity|]. intros q [H|[]]. discriminate.
      * exists []. split; [rewrite app_nil_r; reflexivity | intros q []].
    + exists [Db (ServerJs.all_query (Some 10%nat))]. eff. simpl. split; [reflexivity|].
      intros q [H|[]]. congruence.
Qed.

Lemma mystery_movie_calls (env : Env) :
  valid_clock env ->
  exists extra,
    calls ServerJs.mystery_movie env =
    (Db (ServerJs.primary_query "calendar" (date_of env))
       :: (if retry_needed env (date_of env)
           then [Db (ServerJs.primary_query "Calendar" (date_of env))] else [])
       ++ (if scan_needed env (date_of env) then [Db (ServerJs.all_query None)] else [])
       ++ extra)%list
    /\ forall q, In (Db q) extra -> q = ServerJs.all_query (Some 10%nat).
Proof.
  intros Hclock.
  pose proof (select_entry_calls env (date_of env) []) as Hsel. simpl in Hsel.
  unfold calls, run, ServerJs.mystery_movie, try_catch at 1, bind at 1.
  rewrite (today_valid env [] Hclock).
  unfold bind.
  destruct (ServerJs.select_entry (date_of env) env []) as [[[early|[d e]]|err] t1];
    simpl in Hsel; subst t1.
  - exists []. simpl. rewrite !app_nil_r. split; [reflexivity | intros q []].
  - destruct (finish_calls (date_of env) d e env
                (Db (ServerJs.primary_query "calendar" (date_of env))
                   :: (if retry_needed env (date_of env)
                       then [Db (ServerJs.primary_query "Calendar" (date_of env))] else [])
                   ++ (if scan_needed env (date_of env)
                       then [Db (ServerJs.all_query None)] else []))%list)
      as [extra [Hx Hq]].
    exists extra. split; [|exact Hq].
    unfold try_catch in Hx.
    destruct (ServerJs.finish (date_of env) d e env _) as [[a|e'] t2]; simpl in *;
      rewrite Hx; simpl; rewrite <- app_assoc; reflexivity.
  - exists []. rewrite on_error_calls. rewrite !app_nil_r.
    split; [reflexivity | intros q []].
Qed.




(** Whenever the callback answers, it answers [matches_today]. *)
Lemma entry_matches_returns (parse : value -> option Z) (currentDate : string)
    (entry : object) (b : bool) :
  ServerJs.entry_matches parse currentDate entry = Return b ->
  b = matches_today parse currentDate entry.
Proof.
  unfold ServerJs.entry_matches, matches_today, normalized_date.
  destruct (truthy (lookup entry "date")); simpl.
  - destruct (lookup entry "date") as [| |c|n|s|l|o];
      try (destruct (toISOString _); simpl); intros H; inversion H; reflexivity.
  - intros H. inversion H. reflexivity.
Qed.


(** The search ends with an exception only at an entry, not preceded by a
    match, whose date [Date] cannot represent. *)
Lemma find_throws (parse : value -> option Z) (currentDate : string)
    (rows : list object) (e : Error) :
  ServerJs.find (ServerJs.entry_matches parse currentDate) rows = Throw e ->
  e = RangeError
  /\ exists pre entry post,
      rows = (pre ++ entry :: post)%list
      /\ Forall (fun y => matches_today parse currentDate y = false) pre
      /\ ~ convertible parse entry.
Proof.
  induction rows as [|entry rows IH]; simpl; [discriminate|].
  destruct (ServerJs.entry_matches parse currentDate entry) as [b|e'] eqn:E.
  - apply entry_matches_returns in E.
    destruct b; [discriminate|].
    intros H. destruct (IH H) as [He [pre [x [post [Hrows [Hpre Hx]]]]]].
    split; [exact He|]. exists (entry :: pre), x, post. subst rows.
    split; [reflexivity|]. split; [constructor; auto | exact Hx].
  - intros H. inversion H. subst e'.
    unfold ServerJs.entry_matches in E. unfold convertible, normalized_date.
    destruct (truthy (lookup entry "date")) eqn:Ht; [|discriminate].
    simpl in E.
    assert (Hiso : e = RangeError
                   /\ (forall s, lookup entry "date" <> VStr s)
                   /\ toISOString (time_value parse (lookup entry "date")) = None).
    { destruct (lookup entry "date") as [| |c|n|s|l|o]; try discriminate;
        destruct (toISOString _); try discriminate;
        inversion E; repeat split; intros s'; discriminate. }
    destruct Hiso as [He [Hstr Hnone]].
    split; [exact He|]. exists [], entry, rows.
    split; [reflexivity|]. split; [constructor|].
    intros Hc. apply (Hc Ht).
    destruct (lookup entry "date") as [| |c|n|s|l|o];
      try (rewrite Hnone; reflexivity).
    exfalso. apply (Hstr s). reflexivity.
Qed.









(** A timestamp in milliseconds is brought to the day it falls on. *)
Example normalized_timestamp :
  normalized_date (fun _ => None) (VNum 1705276800000) = Some "2024-01-15"
  /\ normalized_date (fun _ => None) (VStr "2024-01-15T08:00:00+01:00") = Some "2024-01-15".
Proof. split; reflexivity. Qed.

(** A date [Date] cannot represent, met before any match, ends the request
    with the answer of the [catch] clause. *)
Example scan_unrepresentable_date :
  run ServerJs.mystery_movie Sample.unreadable
  = (Return (json 500 [("error", VStr "Internal server error");
                       ("details", VStr "Invalid time value")]),
     [Db (ServerJs.primary_query "calendar" "2024-01-15");
      Db (ServerJs.all_query None)]).
Proof. reflexivity. Qed.

(** When the lookup ends in an error the handler answers 500 with that
    error's message, and makes no further call. *)
Lemma mystery_movie_settled_error (env : Env) (e : PostgrestError) :
  valid_clock env ->
  error (settled env (date_of env)) = Some e ->
  run ServerJs.mystery_movie env =
  (Return (ServerJs.database_error e),
   Db (ServerJs.primary_query "calendar" (date_of env))
     :: (if retry_needed env (date_of env)
         then [Db (ServerJs.primary_query "Calendar" (date_of env))] else [])).
Proof.
  intros Hclock He.
  unfold run, ServerJs.mystery_movie, try_catch, bind at 1.
  rewrite (today_valid env [] Hclock).
  unfold ServerJs.select_entry, bind at 1, bind at 1.
  rewrite lookup_today_run. rewrite He.
  destruct (data (settled env (date_of env))); reflexivity.
Qed.

Lemma missing_relation_message (e : PostgrestError) :
  ServerJs.missing_relation e = true ->
  exists m, pg_message e = Some m /\ m <> "".
Proof.
  unfold ServerJs.missing_relation. destruct (pg_message e) as [m|]; [|discriminate].
  intros H. exists m. split; [reflexivity|].
  intros ->. discriminate.
Qed.

(** C6.  The retry on [Calendar] is made exactly when the primary query ends
    in an error whose message contains [relation] or [does not exist].  It is
    the primary query with the table name replaced and nothing else changed,
    it is made once, right after the primary query, and no later query names
    [Calendar].  After any other error of the primary query the handler
    answers 500 at once: the primary query is the only call. *)
Theorem casing_retry (env : Env) :
  valid_clock env ->
  let primary := ServerJs.primary_query "calendar" (date_of env) in
  let retry := {| q_from := "Calendar"; q_select := q_select primary;
                  q_eq := q_eq primary; q_limit := q_limit primary;
                  q_maybeSingle := q_maybeSingle primary |} in
  ((exists q, In (Db q) (calls ServerJs.mystery_movie env) /\ q_from q = "Calendar")
   <-> (exists e m, error (supabase_row env primary) = Some e
                    /\ pg_message e = Some m
                    /\ (contains m "relation" \/ contains m "does not exist")))
  /\ (exists rest,
         (calls ServerJs.mystery_movie env = Db primary :: rest
          \/ calls ServerJs.mystery_movie env = Db primary :: Db retry :: rest)
         /\ forall q, In (Db q) rest -> q_from q = "calendar")
  /\ (forall e, error (supabase_row env primary) = Some e ->
                ServerJs.missing_relation e = false ->
                run ServerJs.mystery_movie env
                = (Return (ServerJs.database_error e), [Db primary])).
Proof.
  intros Hclock primary retry.
  destruct (mystery_movie_calls env Hclock) as [extra [Hcalls Hextra]].
  fold primary in Hcalls.
  assert (Hrest : forall q,
             In (Db q) ((if scan_needed env (date_of env)
                         then [Db (ServerJs.all_query None)] else []) ++ extra)%list ->
             q_from q = "calendar").
  { intros q H. apply in_app_or in H. destruct H as [H|H].
    - destruct (scan_needed env (date_of env)); [|destruct H].
      destruct H as [H|[]]. inversion H. reflexivity.
    - apply Hextra in H. subst q. reflexivity. }
  assert (Hretry : retry_needed env (date_of env) = true <->
                   exists e m, error (supabase_row env primary) = Some e
                               /\ pg_message e = Some m
                               /\ (contains m "relation" \/ contains m "does not exist")).
  { unfold retry_needed. fold primary.
    destruct (error (supabase_row env primary)) as [e|].
    - rewrite missing_relation_iff. split.
      + intros [m [Hm H]]. exists e, m. auto.
      + intros [e' [m [He [Hm H]]]]. inversion He. subst. exists m. auto.
    - split; [discriminate | intros [e [m [He _]]]; discriminate]. }
  split; [|split].
  - rewrite <- Hretry. rewrite Hcalls. split.
    + intros [q [[H|H] Hq]].
      * inversion H. subst q. discriminate.
      * destruct (retry_needed env (date_of env)); [reflexivity|].
        apply Hrest in H. rewrite H in Hq. discriminate.
    + intros Hr. rewrite Hr. exists retry. split; [|reflexivity].
      right. left. reflexivity.
  - rewrite Hcalls. destruct (retry_needed env (date_of env)).
    + eexists. split; [right; reflexivity | exact Hrest].
    + eexists. split; [left; reflexivity | exact Hrest].
  - intros e He Hm.
    assert (Hr : retry_needed env (date_of env) = false).
    { unfold retry_needed. fold primary. rewrite He. exact Hm. }
    rewrite (mystery_movie_settled_error env e Hclock).
    + rewrite Hr. reflexivity.
    + unfold settled. rewrite Hr. exact He.
Qed.

Lemma casing_retry_witness :
  exists q, In (Db q) (calls ServerJs.mystery_movie Sample.miscased)
            /\ q_from q = "Calendar".
Proof.
  assert (Hclock : valid_clock Sample.miscased).
  { unfold valid_clock. simpl. unfold Sample.noon. lia. }
  apply (proj1 (casing_retry Sample.miscased Hclock)).
  exists Sample.relation_error, "relation public.calendar does not exist".
  split; [reflexivity|]. split; [reflexivity|].
  left. exists "", " public.calendar does not exist". reflexivity.
Defined.

(** C9.  After a missing-relation error of the primary query, the retry's
    [data] and [error] replace the primary ones only when the retry has no
    error.  When the retry fails too, [data] and [error] are those of the
    primary query, and the handler answers 500 with the message of the
    primary error, whatever the error of the retry says. *)
Theorem failed_retry_keeps_primary (env : Env) (e : PostgrestError) :
  valid_clock env ->
  error (supabase_row env (ServerJs.primary_query "calendar" (date_of env))) = Some e ->
  ServerJs.missing_relation e = true ->
  (error (supabase_row env (ServerJs.primary_query "Calendar" (date_of env))) = None ->
   fst (run (ServerJs.lookup_today (date_of env)) env)
   = Return {| data := data (supabase_row env
                               (ServerJs.primary_query "Calendar" (date_of env)));
               error := None |})
  /\ (forall e2,
         error (supabase_row env (ServerJs.primary_query "Calendar" (date_of env))) = Some e2 ->
         fst (run (ServerJs.lookup_today (date_of env)) env)
         = Return (supabase_row env (ServerJs.primary_query "calendar" (date_of env)))
         /\ exists m,
             pg_message e = Some m
             /\ run ServerJs.mystery_movie env
                = (Return (json 500 [("error", VStr "Database error");
                                     ("details", VStr m)]),
                   [Db (ServerJs.primary_query "calendar" (date_of env));
                    Db (ServerJs.primary_query "Calendar" (date_of env))])).
Proof.
  intros Hclock He Hm.
  assert (Hr : retry_needed env (date_of env) = true).
  { unfold retry_needed. rewrite He. exact Hm. }
  split.
  - intros H2. unfold run. rewrite lookup_today_run. unfold settled.
    rewrite Hr, H2. reflexivity.
  - intros e2 H2.
    assert (Hs : settled env (date_of env)
                 = supabase_row env (ServerJs.primary_query "calendar" (date_of env))).
    { unfold settled. rewrite Hr, H2. reflexivity. }
    split.
    + unfold run. rewrite lookup_today_run, Hs. reflexivity.
    + destruct (missing_relation_message e Hm) as [m [Hmsg Hne]].
      exists m. split; [exact Hmsg|].
      rewrite (mystery_movie_settled_error env e Hclock) by (rewrite Hs; exact He).
      rewrite Hr. unfold ServerJs.database_error, or_else. rewrite Hmsg. simpl.
      apply String.eqb_neq in Hne. rewrite Hne. reflexivity.
Qed.

Lemma failed_retry_keeps_primary_witness :
  run ServerJs.mystery_movie Sample.no_table
  = (Return (json 500 [("error", VStr "Database error");
                       ("details", VStr "relation public.calendar does not exist")]),
     [Db (ServerJs.primary_query "calendar" "2024-01-15");
      Db (ServerJs.primary_query "Calendar" "2024-01-15")]).
Proof.
  assert (Hclock : valid_clock Sample.no_table).
  { unfold valid_clock. simpl. unfold Sample.noon. lia. }
  destruct (failed_retry_keeps_primary Sample.no_table Sample.relation_error
              Hclock eq_refl eq_refl) as [_ H].
  destruct (H {| pg_message := Some "permission denied" |} eq_refl) as [_ [m [Hm Hrun]]].
  inversion Hm. subst m. exact Hrun.
Defined.

(** ** The [/api] routes *)

Lemma part_on_error_calls (failed : string) (e : Error) (env : Env) (t : list call) :
  snd (Part000.on_error failed e env t) = t.
Proof. unfold Part000.on_error. destruct (response e); reflexivity. Qed.

Lemma truthy_param (s : string) : s <> "" -> truthy (Part001.param (Some s)) = true.
Proof. intros H. simpl. apply String.eqb_neq in H. rewrite H. reflexivity. Qed.

Lemma api_movie_run (env : Env) (s : string) :
  s <> "" ->
  run (Part001.api_movie (Some s)) env =
  match Part001.fetchMovieDetails (VStr s) env [] with
  | (Return movieDetails, t) => (Return (json 200 [("movie", VObj movieDetails)]), t)
  | (Throw e, t) => Part000.on_error "Failed to fetch movie from TheMovieDB" e env t
  end.
Proof.
  intros H. unfold run, Part001.api_movie.
  unfold try_catch at 1. rewrite (truthy_param s H). simpl. unfold bind.
  destruct (Part001.fetchMovieDetails (VStr s) env []) as [[m|e] t]; reflexivity.
Qed.

(** C4.  [/api/search] with the query absent or empty answers 400 and makes
    no call.  With any other query it makes one call, to the search endpoint
    and with that query; when the metadata service answers it with a JSON
    object, the answer is 200 with the query as given and with [results],
    [total_results], [page] and [total_pages] as they are in that object. *)
Theorem api_search_passthrough (env : Env) (query : value) :
  (query = VUndefined \/ query = VStr "" ->
   run (Part001.api_search query) env
   = (Return (json 400 [("error", VStr "Query parameter is required");
                        ("example", VStr "/search?query=batman")]), []))
  /\ (truthy query = true ->
      calls (Part001.api_search query) env
      = [Http {| url := TMDB_BASE_URL ++ "/search/movie";
                 params := [("api_key", VStr (TMDB_API_KEY env));
                            ("query", query);
                            ("language", VStr "pl-PL")] |}]
      /\ forall upstream payload,
          tmdb env (Part001.search_request env query) = inr upstream ->
          rdata upstream = VObj payload ->
          answer (Part001.api_search query) env
          = Return (json 200 [("query", query);
                              ("results", lookup payload "results");
                              ("total_results", lookup payload "total_results");
                              ("page", lookup payload "page");
                              ("total_pages", lookup payload "total_pages")])).
Proof.
  split.
  - intros [->| ->]; reflexivity.
  - intros Ht. unfold Part001.api_search. eff. rewrite Ht. simpl. split.
    + destruct (tmdb env (Part001.search_request env query)) as [e|up].
      * apply part_on_error_calls.
      * destruct (rdata up); try reflexivity; apply part_on_error_calls.
    + intros up payload Hup Hp. rewrite Hup, Hp. reflexivity.
Qed.

Lemma api_search_passthrough_witness :
  run (Part001.api_search (VStr "fight")) (Sample.with_row [])
  = (Return (json 200 [("query", VStr "fight");
                       ("results", VArr [Sample.fight_club]);
                       ("total_results", VNum 1);
                       ("page", VNum 1);
                       ("total_pages", VNum 1)]),
     [Http {| url := "https://api.themoviedb.org/3/search/movie";
              params := [("api_key", VStr "k"); ("query", VStr "fight");
                         ("language", VStr "pl-PL")] |}]).
Proof.
  destruct (api_search_passthrough (Sample.with_row []) (VStr "fight")) as [_ H].
  destruct (H eq_refl) as [Hcalls Hans].
  specialize (Hans _ _ eq_refl eq_refl).
  unfold answer in Hans. unfold calls in Hcalls.
  rewrite (surjective_pairing (run (Part001.api_search (VStr "fight")) (Sample.with_row []))).
  rewrite Hans, Hcalls. reflexivity.
Defined.




(** C8.  Two runs of [/api/movie/:movie_id] for the same identifier, in
    worlds that answer the details request alike and the credits request
    alike, give the same [movie]; the clock, the database, the rest of the
    metadata service and the order in which the two requests settle do not
    matter.  Unless both requests fail, the two answers are equal as a
    whole. *)
Theorem api_movie_deterministic (env1 env2 : Env) (id : option string) :
  tmdb env1 (Part001.details_request env1 (Part001.param id))
  = tmdb env2 (Part001.details_request env2 (Part001.param id)) ->
  tmdb env1 (Part001.credits_request env1 (Part001.param id))
  = tmdb env2 (Part001.credits_request env2 (Part001.param id)) ->
  movie_payload (answer (Part001.api_movie id) env1)
  = movie_payload (answer (Part001.api_movie id) env2)
  /\ ((exists md, tmdb env1 (Part001.details_request env1 (Part001.param id)) = inr md)
      \/ (exists cr, tmdb env1 (Part001.credits_request env1 (Part001.param id)) = inr cr) ->
      answer (Part001.api_movie id) env1 = answer (Part001.api_movie id) env2).
Proof.
  intros Hd Hc.
  destruct (truthy (Part001.param id)) eqn:Ht.
  - assert (Hrun : forall env,
               answer (Part001.api_movie id) env =
               match fst (Part001.fetchMovieDetails (Part001.param id) env []) with
               | Return movieDetails => Return (json 200 [("movie", VObj movieDetails)])
               | Throw e =>
                   fst (Part000.on_error "Failed to fetch movie from TheMovieDB" e env [])
               end).
    { intros env. unfold answer, run, Part001.api_movie, try_catch at 1.
      rewrite Ht. simpl. unfold bind.
      destruct (Part001.fetchMovieDetails (Part001.param id) env []) as [[m|e] t];
        [reflexivity|].
      simpl. unfold Part001.on_error, Part000.on_error.
      destruct (response e); reflexivity. }
    rewrite !Hrun. clear Hrun.
    destruct (tmdb env1 (Part001.details_request env1 (Part001.param id)))
      as [e1|md] eqn:Hd1,
      (tmdb env1 (Part001.credits_request env1 (Part001.param id)))
      as [e2|cr] eqn:Hc1; symmetry in Hd, Hc.
    + rewrite (fetchMovieDetails_rejected env1 _ [] (if first_rejects_first env1 then e1 else e2))
        by (rewrite Hd1, Hc1; reflexivity).
      rewrite (fetchMovieDetails_rejected env2 _ [] (if first_rejects_first env2 then e1 else e2))
        by (rewrite Hd, Hc; reflexivity).
      split.
      * unfold Part000.on_error.
        destruct (first_rejects_first env1), (first_rejects_first env2);
          destruct (response e1), (response e2); reflexivity.
      * intros [[md H]|[cr H]]; discriminate.
    + rewrite (fetchMovieDetails_rejected env1 _ [] e1) by (rewrite Hd1, Hc1; reflexivity).
      rewrite (fetchMovieDetails_rejected env2 _ [] e1) by (rewrite Hd, Hc; reflexivity).
      unfold Part000.on_error. destruct (response e1); auto.
    + rewrite (fetchMovieDetails_rejected env1 _ [] e2) by (rewrite Hd1, Hc1; reflexivity).
      rewrite (fetchMovieDetails_rejected env2 _ [] e2) by (rewrite Hd, Hc; reflexivity).
      unfold Part000.on_error. destruct (response e2); auto.
    + rewrite (fetchMovieDetails_resolved env1 _ [] md cr Hd1 Hc1).
      rewrite (fetchMovieDetails_resolved env2 _ [] md cr Hd Hc).
      destruct (get (rdata cr) "cast"); [destruct (get (rdata cr) "crew")|]; auto.
  - assert (Hrun : forall env,
               answer (Part001.api_movie id) env
               = Return (json 400 [("error", VStr "Movie ID is required");
                                   ("example", VStr "/movie/550")])).
    { intros env. unfold answer, run, Part001.api_movie, try_catch.
      rewrite Ht. reflexivity. }
    rewrite !Hrun. auto.
Qed.

Lemma api_movie_deterministic_witness :
  movie_payload (answer (Part001.api_movie (Some "550")) (Sample.with_row []))
  = movie_payload (answer (Part001.api_movie (Some "550")) Sample.elsewhere)
  /\ answer (Part001.api_movie (Some "550")) (Sample.with_row [])
     = answer (Part001.api_movie (Some "550")) Sample.elsewhere.
Proof.
  destruct (api_movie_deterministic (Sample.with_row []) Sample.elsewhere (Some "550")
              eq_refl eq_refl) as [H1 H2].
  split; [exact H1|]. apply H2. left. eexists. reflexivity.
Defined.

(** C10.  [/api/movie/:movie_id] does not look at the form of its parameter:
    for every non-empty string, numeric or not, the two requests are sent with
    the string put as it is after [/movie/].  The answer [Movie ID is
    required] is given exactly when the parameter is absent or empty, and
    then nothing is sent. *)
Theorem api_movie_no_validation (env : Env) :
  (forall s, s <> "" ->
     calls (Part001.api_movie (Some s)) env
     = [Http {| url := "https://api.themoviedb.org/3/movie/" ++ s;
                params := [("api_key", VStr (TMDB_API_KEY env));
                           ("language", VStr "pl-PL")] |};
        Http {| url := "https://api.themoviedb.org/3/movie/" ++ s ++ "/credits";
                params := [("api_key", VStr (TMDB_API_KEY env));
                           ("language", VStr "pl-PL")] |}])
  /\ (forall id,
         answer (Part001.api_movie id) env
         = Return (json 400 [("error", VStr "Movie ID is required");
                             ("example", VStr "/movie/550")])
         <-> id = None \/ id = Some "")
  /\ (forall id, id = None \/ id = Some "" -> calls (Part001.api_movie id) env = []).
Proof.
  split; [|split].
  - intros s Hs. unfold calls. rewrite (api_movie_run env s Hs).
    pose proof (fetchMovieDetails_calls env (VStr s) []) as Hc.
    destruct (Part001.fetchMovieDetails (VStr s) env []) as [[m|e] t]; simpl in Hc.
    + simpl. rewrite Hc. reflexivity.
    + rewrite part_on_error_calls. rewrite Hc. reflexivity.
  - intros id. split.
    + destruct id as [s|]; [|auto].
      destruct (string_dec s "") as [->|Hs]; [auto|].
      unfold answer. rewrite (api_movie_run env s Hs).
      destruct (Part001.fetchMovieDetails (VStr s) env []) as [[m|e] t].
      * discriminate.
      * unfold Part000.on_error. destruct (response e); discriminate.
    + intros [->| ->]; reflexivity.
  - intros id [->| ->]; reflexivity.
Qed.

(** A parameter that is not a number is passed on like any other. *)
Example api_movie_not_a_number :
  run (Part001.api_movie (Some "fight club")) (Sample.with_row [])
  = (Return (json 404
               [("error", VStr "Failed to fetch movie from TheMovieDB");
                ("details", VStr "The resource you requested could not be found.")]),
     [Http {| url := "https://api.themoviedb.org/3/movie/fight club";
              params := [("api_key", VStr "k"); ("language", VStr "pl-PL")] |};
      Http {| url := "https://api.themoviedb.org/3/movie/fight club/credits";
              params := [("api_key", VStr "k"); ("language", VStr "pl-PL")] |}]).
Proof. reflexivity. Qed.

Lemma api_movie_no_validation_witness :
  calls (Part001.api_movie (Some "fight club")) (Sample.with_row [])
  = [Http {| url := "https://api.themoviedb.org/3/movie/fight club";
             params := [("api_key", VStr "k"); ("language", VStr "pl-PL")] |};
     Http {| url := "https://api.themoviedb.org/3/movie/fight club/credits";
             params := [("api_key", VStr "k"); ("language", VStr "pl-PL")] |}].
Proof.
  destruct (api_movie_no_validation (Sample.with_row [])) as [H _].
  apply (H "fight club"). discriminate.
Defined.

(** ** The bodies of the successful answers *)

(** What [fetchMovieDetails] returns carries [cast] and [crew], read from the
    credits answer, on top of the details answer. *)
Lemma fetchMovieDetails_returns (env : Env) (movieId : value) (t : list call)
    (movie : object) :
  fst (Part001.fetchMovieDetails movieId env t) = Return movie ->
  exists md cr cast crew,
    tmdb env (Part001.details_request env movieId) = inr md
    /\ tmdb env (Part001.credits_request env movieId) = inr cr
    /\ get (rdata cr) "cast" = Some cast /\ get (rdata cr) "crew" = Some crew
    /\ movie = set (set (spread (rdata md)) "cast" cast) "crew" crew
    /\ has_key movie "cast" = true /\ has_key movie "crew" = true.
Proof.
  destruct (tmdb env (Part001.details_request env movieId)) as [e1|md] eqn:Hd,
           (tmdb env (Part001.credits_request env movieId)) as [e2|cr] eqn:Hc.
  - rewrite (fetchMovieDetails_rejected env movieId t
               (if first_rejects_first env then e1 else e2))
      by (rewrite Hd, Hc; reflexivity). discriminate.
  - rewrite (fetchMovieDetails_rejected env movieId t e1) by (rewrite Hd, Hc; reflexivity).
    discriminate.
  - rewrite (fetchMovieDetails_rejected env movieId t e2) by (rewrite Hd, Hc; reflexivity).
    discriminate.
  - rewrite (fetchMovieDetails_resolved env movieId t md cr Hd Hc).
    destruct (get (rdata cr) "cast") as [cast|] eqn:Hcast; [|discriminate].
    destruct (get (rdata cr) "crew") as [crew|] eqn:Hcrew; [|discriminate].
    intros H. inversion H. subst movie. exists md, cr, cast, crew.
    repeat split; try reflexivity; try assumption; rewrite !has_key_set; reflexivity.
Qed.

(** The early answer of the lookup of server.js is a database error. *)
Lemma select_entry_early (env : Env) (currentDate : string) (t : list call)
    (early : Response) :
  fst (ServerJs.select_entry currentDate env t) = Return (inl early) ->
  exists e, early = ServerJs.database_error e.
Proof.
  unfold ServerJs.select_entry, bind at 1. rewrite lookup_today_run.
  destruct (data (settled env currentDate)), (error (settled env currentDate));
    try discriminate.
  unfold ServerJs.scan_all. eff.
  destruct (error (supabase_rows env (ServerJs.all_query None))) as [e|].
  - simpl. intros H. inversion H. exists e. reflexivity.
  - destruct (data (supabase_rows env (ServerJs.all_query None))) as [[|e0 rest]|];
      try discriminate.
    destruct (ServerJs.find _ _); discriminate.
Qed.

Lemma part000_success (env : Env) (resp : Response) :
  answer Part000.mystery_movie env = Return resp ->
  has_key (body resp) "error" = false ->
  exists req upstream,
    tmdb env req = inr upstream
    /\ resp = json 200 [("date", VStr (date_of env)); ("movie", rdata upstream)].
Proof.
  unfold answer, run, Part000.mystery_movie, try_catch, bind at 1.
  destruct (today_cases env []) as [Ht|Ht]; rewrite Ht.
  - eff. simpl.
    match goal with |- context [supabase_row env ?q] => destruct (supabase_row env q) as [d e] end.
    simpl. destruct e as [e|]; simpl.
    + intros H. inversion H. discriminate.
    + destruct d as [row|]; simpl.
      * destruct (truthy (lookup row "movie")); simpl.
        -- match goal with |- context [tmdb env ?r] =>
             destruct (tmdb env r) as [err|up] eqn:Hup end.
           ++ unfold Part000.on_error. destruct (response err); simpl;
                intros H; inversion H; discriminate.
           ++ simpl. intros H _. inversion H. eauto.
        -- intros H. inversion H. discriminate.
      * intros H. inversion H. discriminate.
  - intros H. inversion H. discriminate.
Qed.

Lemma serverjs_success (env : Env) (resp : Response) :
  answer ServerJs.mystery_movie env = Return resp ->
  has_key (body resp) "error" = false ->
  exists req upstream,
    tmdb env req = inr upstream
    /\ resp = json 200 [("date", VStr (date_of env)); ("movie", rdata upstream)].
Proof.
  unfold answer, run, ServerJs.mystery_movie, try_catch, bind at 1.
  destruct (today_cases env []) as [Ht|Ht]; rewrite Ht.
  - unfold bind at 1.
    pose proof (select_entry_early env (date_of env) []) as Hearly.
    destruct (ServerJs.select_entry (date_of env) env []) as [[[early|[d e]]|err] t1];
      simpl in *.
    + destruct (Hearly early eq_refl) as [e ->].
      intros H. inversion H. discriminate.
    + unfold ServerJs.finish. destruct e as [e|]; simpl.
      * intros H. inversion H. discriminate.
      * destruct d as [row|].
        -- unfold ServerJs.respond. eff.
           destruct (truthy (ServerJs.movieId_of row)); simpl.
           ++ match goal with |- context [tmdb env ?r] =>
                destruct (tmdb env r) as [err|up] eqn:Hup end.
              ** unfold ServerJs.on_error. destruct (response err); simpl;
                   intros H; inversion H; discriminate.
              ** simpl. intros H _. inversion H. eauto.
           ++ intros H. inversion H. discriminate.
        -- eff. simpl. intros H. inversion H. discriminate.
    + unfold ServerJs.on_error. destruct (response err); simpl;
        intros H; inversion H; discriminate.
  - intros H. inversion H. discriminate.
Qed.

Lemma api_mystery_movie_success (env : Env) (resp : Response) :
  answer Part001.api_mystery_movie env = Return resp ->
  has_key (body resp) "error" = false ->
  exists row movie,
    fst (run (Part001.fetchMovieDetails (lookup row "movie")) env) = Return movie
    /\ has_key movie "cast" = true /\ has_key movie "crew" = true
    /\ resp = json 200 [("date", VStr (date_of env));
                        ("quote_en", lookup row "quote_en");
                        ("quote_pl", lookup row "quote_pl");
                        ("description", lookup row "description");
                        ("movie", VObj movie)].
Proof.
  unfold answer, run, Part001.api_mystery_movie, try_catch, bind at 1.
  destruct (today_cases env []) as [Ht|Ht]; rewrite Ht.
  - unfold bind at 1, await_row.
    match goal with |- context [supabase_row env ?q] => destruct (supabase_row env q) as [d e] end.
    simpl. destruct e as [e|]; simpl.
    + intros H. inversion H. discriminate.
    + destruct d as [row|]; simpl.
      * destruct (truthy (lookup row "movie")); simpl.
        -- unfold bind.
           match goal with |- context [Part001.fetchMovieDetails ?id env ?t] =>
             pose proof (fetchMovieDetails_returns env id t) as Hret;
             destruct (Part001.fetchMovieDetails id env t) as [[movie|err] t1] eqn:Hf
           end.
           ++ simpl. intros H _. inversion H.
              destruct (Hret movie eq_refl)
                as [md [cr [cast [crew [Hd [Hc [Hcast [Hcrew [Hm [Kcast Kcrew]]]]]]]]]].
              exists row, movie. repeat split; try assumption.
              unfold run.
              rewrite (fetchMovieDetails_resolved env _ [] md cr Hd Hc), Hcast, Hcrew.
              congruence.
           ++ unfold Part001.on_error, Part000.on_error. destruct (response err); simpl;
                intros H; inversion H; discriminate.
        -- intros H. inversion H. discriminate.
      * intros H. inversion H. discriminate.
  - intros H. inversion H. discriminate.
Qed.

(** ** The date of the day *)

Lemma civil_year_range (day : Z) :
  -719528 <= day <= 2932896 ->
  0 <= fst (fst (civil_from_days day)) <= 9999.
Proof.
  intros H. unfold civil_from_days. cbv zeta. cbn [fst].
  set (z := day + 719468).
  set (era := z / 146097).
  set (doe := z - era * 146097).
  set (yoe := (doe - doe / 1460 + doe / 36524 - doe / 146096) / 365).
  set (doy := doe - (365 * yoe + yoe / 4 - yoe / 100)).
  set (mp := (5 * doy + 2) / 153).
  assert (Hz : -60 <= z <= 3652364) by (unfold z; lia).
  assert (Hera : -1 <= era <= 24 /\ 0 <= doe < 146097
                 /\ (era = -1 -> 146037 <= doe) /\ (era = 24 -> doe <= 146036)).
  { unfold doe, era. Z.div_mod_to_equations. lia. }
  destruct Hera as [Hera [Hdoe [Hlo Hhi]]].
  assert (Hyoe : 0 <= yoe <= 399 /\ (146037 <= doe -> yoe = 399)
                 /\ (yoe = 399 -> 145731 <= doe)).
  { unfold yoe. clearbody doe. clear -Hdoe. Z.div_mod_to_equations. lia. }
  destruct Hyoe as [Hyoe [Hy1 Hy2]].
  assert (Hdoy : 0 <= doy <= 365).
  { unfold doy, yoe. clearbody doe. clear -Hdoe. Z.div_mod_to_equations. lia. }
  assert (Hmp : 0 <= mp <= 11 /\ (146037 <= doe -> 10 <= mp)
                /\ (yoe = 399 -> doe <= 146036 -> mp < 10)).
  { split; [|split].
    - unfold mp. clearbody doy. clear -Hdoy. Z.div_mod_to_equations. lia.
    - unfold mp, doy. intros Hd. rewrite (Hy1 Hd). clearbody doe. clear -Hd Hdoe.
      Z.div_mod_to_equations. lia.
    - unfold mp, doy. intros Hy Hd. rewrite Hy. specialize (Hy2 Hy).
      clearbody doe. clear -Hd Hy2.
      Z.div_mod_to_equations. lia. }
  destruct Hmp as [Hm0 [Hm1 Hm2]].
  clearbody mp yoe doe era.
  destruct (mp <? 10) eqn:E2; [apply Z.ltb_lt in E2 | apply Z.ltb_ge in E2].
  - replace (mp + 3 <=? 2) with false by (symmetry; apply Z.leb_gt; lia). lia.
  - destruct (mp - 9 <=? 2) eqn:E3; [|apply Z.leb_gt in E3]; lia.
Qed.

Lemma digit_is_digit (k : Z) : is_digit (digit k) = true.
Proof.
  unfold digit. destruct k as [|p|p]; [reflexivity| |reflexivity].
  do 4 (destruct p as [p|p|]; try reflexivity).
Qed.

Lemma digit_not_T (k : Z) : Ascii.eqb (digit k) "T" = false.
Proof.
  unfold digit. destruct k as [|p|p]; [reflexivity| |reflexivity].
  do 4 (destruct p as [p|p|]; try reflexivity).
Qed.

Lemma date_of_shape (env : Env) :
  -62167219200000 <= now env <= 253402300799999 ->
  is_YYYY_MM_DD (date_of env) = true.
Proof.
  intros Hnow. unfold date_of, iso_of_time.
  assert (Hday : -719528 <= now env / msPerDay <= 2932896).
  { unfold msPerDay. Z.div_mod_to_equations. lia. }
  pose proof (civil_year_range _ Hday) as Hy.
  destruct (civil_from_days (now env / msPerDay)) as [[y m] d]. cbn [fst] in Hy.
  unfold iso_year.
  replace ((0 <=? y) && (y <=? 9999)) with true
    by (symmetry; apply andb_true_iff; split; apply Z.leb_le; lia).
  cbn [pad append split_T_0].
  rewrite !digit_not_T.
  change (Ascii.eqb "-" "T") with false.
  change (Ascii.eqb "T" "T") with true.
  cbn iota.
  unfold is_YYYY_MM_DD. cbn [list_ascii_of_string].
  rewrite !digit_is_digit. reflexivity.
Qed.

(** ** Beyond the claims: how the handlers run *)

Lemma today_invalid (env : Env) (t : list call) :
  ~ valid_clock env -> today env t = (Throw RangeError, t).
Proof.
  unfold valid_clock, today, TimeClip. intros H.
  destruct (Z.abs (now env) <=? 8640000000000000) eqn:E; [|reflexivity].
  apply Z.leb_le in E. contradiction.
Qed.

Lemma part_on_error_returns (failed : string) (e : Error) (env : Env) (t : list call) :
  exists resp, Part000.on_error failed e env t = (Return resp, t)
               /\ has_key (body resp) "error" = true.
Proof.
  unfold Part000.on_error. destruct (response e); eexists; split; reflexivity.
Qed.

Lemma serverjs_on_error_returns (e : Error) (env : Env) (t : list call) :
  exists resp, ServerJs.on_error e env t = (Return resp, t)
               /\ has_key (body resp) "error" = true.
Proof.
  unfold ServerJs.on_error. destruct (response e); eexists; split; reflexivity.
Qed.

(** A [try] whose [catch] clause always answers always answers. *)
Lemma try_catch_returns {A : Type} (m : Eff A) (h : Error -> Eff A)
    (env : Env) (t : list call) :
  (forall e t', exists a, h e env t' = (Return a, t')) ->
  exists a, fst (try_catch m h env t) = Return a.
Proof.
  intros Hh. unfold try_catch.
  destruct (m env t) as [[a|e] t'].
  - exists a. reflexivity.
  - destruct (Hh e t') as [a Ha]. exists a. rewrite Ha. reflexivity.
Qed.

Lemma part000_run (env : Env) :
  valid_clock env ->
  run Part000.mystery_movie env =
  let q := calendar_query "movie" (date_of env) in
  match error (supabase_row env q), data (supabase_row env q) with
  | Some e, _ =>
      (Return (json 500 [("error", VStr "Database error");
                         ("details", of_message (pg_message e))]), [Db q])
  | None, None => (Return (json 404 [("error", VStr "No movie found for today")]), [Db q])
  | None, Some row =>
      if truthy (lookup row "movie") then
        match tmdb env (legacy_request env (lookup row "movie")) with
        | inr up =>
            (Return (json 200 [("date", VStr (date_of env)); ("movie", rdata up)]),
             [Db q; Http (legacy_request env (lookup row "movie"))])
        | inl e =>
            Part000.on_error "Failed to fetch movie from TheMovieDB" e env
              [Db q; Http (legacy_request env (lookup row "movie"))]
        end
      else (Return (json 404 [("error", VStr "No movie found for today")]), [Db q])
  end.
Proof.
  intros Hclock. unfold run, Part000.mystery_movie, try_catch, bind at 1.
  rewrite (today_valid env [] Hclock). eff. cbv zeta.
  change {| q_from := "calendar"; q_select := "movie";
            q_eq := Some ("date", date_of env); q_limit := None; q_maybeSingle := true |}
    with (calendar_query "movie" (date_of env)).
  destruct (supabase_row env (calendar_query "movie" (date_of env))) as [d e].
  cbn [data error]. destruct e as [e|]; [reflexivity|].
  destruct d as [row|]; [|reflexivity].
  destruct (truthy (lookup row "movie")); [|reflexivity].
  cbn [negb]. fold (legacy_request env (lookup row "movie")).
  destruct (tmdb env (legacy_request env (lookup row "movie"))); reflexivity.
Qed.

Lemma api_mystery_movie_run (env : Env) :
  valid_clock env ->
  run Part001.api_mystery_movie env =
  let q := calendar_query "*" (date_of env) in
  match error (supabase_row env q), data (supabase_row env q) with
  | Some e, _ =>
      (Return (json 500 [("error", VStr "Database error");
                         ("details", of_message (pg_message e))]), [Db q])
  | None, None => (Return (json 404 [("error", VStr "No movie found for today")]), [Db q])
  | None, Some row =>
      if truthy (lookup row "movie") then
        match Part001.fetchMovieDetails (lookup row "movie") env [Db q] with
        | (Return movieDetails, t) =>
            (Return (json 200 [("date", VStr (date_of env));
                               ("quote_en", lookup row "quote_en");
                               ("quote_pl", lookup row "quote_pl");
                               ("description", lookup row "description");
                               ("movie", VObj movieDetails)]), t)
        | (Throw e, t) =>
            Part000.on_error "Failed to fetch movie from TheMovieDB" e env t
        end
      else (Return (json 404 [("error", VStr "No movie found for today")]), [Db q])
  end.
Proof.
  intros Hclock. unfold run, Part001.api_mystery_movie, try_catch at 1, bind at 1.
  rewrite (today_valid env [] Hclock). unfold bind at 1, await_row. cbv zeta.
  change {| q_from := "calendar"; q_select := "*";
            q_eq := Some ("date", date_of env); q_limit := None; q_maybeSingle := true |}
    with (calendar_query "*" (date_of env)).
  destruct (supabase_row env (calendar_query "*" (date_of env))) as [d e].
  cbn [data error]. destruct e as [e|]; [reflexivity|].
  destruct d as [row|]; [|reflexivity].
  destruct (truthy (lookup row "movie")); [|reflexivity].
  cbn [negb app]. unfold bind.
  destruct (Part001.fetchMovieDetails (lookup row "movie") env _) as [[m|e] t];
    reflexivity.
Qed.

Lemma serverjs_run (env : Env) :
  valid_clock env ->
  run ServerJs.mystery_movie env =
  match ServerJs.select_entry (date_of env) env [] with
  | (Return (inl early), t) => (Return early, t)
  | (Return (inr (d, e)), t) =>
      try_catch (ServerJs.finish (date_of env) d e) ServerJs.on_error env t
  | (Throw e, t) => ServerJs.on_error e env t
  end.
Proof.
  intros Hclock. unfold run, ServerJs.mystery_movie, try_catch at 1, bind at 1.
  rewrite (today_valid env [] Hclock). unfold bind at 1.
  destruct (ServerJs.select_entry (date_of env) env []) as [[[early|[d e]]|err] t];
    reflexivity.
Qed.

Lemma invalid_clock_answers (env : Env) :
  ~ valid_clock env ->
  run Part000.mystery_movie env
  = (Return (json 500 [("error", VStr "Internal server error");
                       ("details", VStr "Invalid time value")]), [])
  /\ run ServerJs.mystery_movie env
     = (Return (json 500 [("error", VStr "Internal server error");
                          ("details", VStr "Invalid time value")]), [])
  /\ run Part001.api_mystery_movie env
     = (Return (json 500 [("error", VStr "Internal server error");
                          ("details", VStr "Invalid time value")]), []).
Proof.
  intros H. repeat split.
  - unfold run, Part000.mystery_movie, try_catch, bind at 1.
    rewrite (today_invalid env [] H). reflexivity.
  - unfold run, ServerJs.mystery_movie, try_catch, bind at 1.
    rewrite (today_invalid env [] H). reflexivity.
  - unfold run, Part001.api_mystery_movie, try_catch, bind at 1.
    rewrite (today_invalid env [] H). reflexivity.
Qed.

(** X1.  No handler lets an exception out: the two [GET /mystery_movie], the
    three [/api] routes and [GET /test-db] answer in every world, whatever the
    database and the metadata service do.  [fetchMovieDetails] is not a
    handler and does throw. *)
Theorem handlers_always_answer (env : Env) :
  (exists resp, answer Part000.mystery_movie env = Return resp)
  /\ (exists resp, answer ServerJs.mystery_movie env = Return resp)
  /\ (exists resp, answer Part001.api_mystery_movie env = Return resp)
  /\ (forall query, exists resp, answer (Part001.api_search query) env = Return resp)
  /\ (forall movie_id, exists resp, answer (Part001.api_movie movie_id) env = Return resp)
  /\ (forall reply, exists resp, answer (TestDb.test_db reply) env = Return resp)
  /\ (forall movieId e,
         tmdb env (Part001.details_request env movieId) = inl e ->
         (exists cr, tmdb env (Part001.credits_request env movieId) = inr cr) ->
         fst (run (Part001.fetchMovieDetails movieId) env) = Throw e).
Proof.
  assert (H0 : forall failed e t', exists a, Part000.on_error failed e env t' = (Return a, t')).
  { intros failed e t'. destruct (part_on_error_returns failed e env t') as [r [H _]]. eauto. }
  assert (H1 : forall e t', exists a, ServerJs.on_error e env t' = (Return a, t')).
  { intros e t'. destruct (serverjs_on_error_returns e env t') as [r [H _]]. eauto. }
  repeat split; intros.
  - apply try_catch_returns. apply H0.
  - apply try_catch_returns. apply H1.
  - apply try_catch_returns. apply H0.
  - apply try_catch_returns. apply H0.
  - apply try_catch_returns. apply H0.
  - apply try_catch_returns. intros e t'. eexists. reflexivity.
  - destruct H2 as [cr Hc]. apply fetchMovieDetails_rejected.
    rewrite H, Hc. reflexivity.
Qed.

Lemma clock_dec (env : Env) : valid_clock env \/ ~ valid_clock env.
Proof.
  unfold valid_clock.
  destruct (Z_le_gt_dec (Z.abs (now env)) 8640000000000000); [left | right]; lia.
Qed.

Lemma http_requests_app (a b : list call) :
  http_requests (a ++ b) = (http_requests a ++ http_requests b)%list.
Proof.
  induction a as [|[q|r] a IH]; simpl; [reflexivity | exact IH | rewrite IH; reflexivity].
Qed.

Lemma http_requests_in (t : list call) (r : Request) :
  In (Http r) t <-> In r (http_requests t).
Proof.
  induction t as [|[q|r'] t IH]; simpl.
  - tauto.
  - rewrite <- IH. split; [intros [H|H]; [discriminate | exact H] | auto].
  - rewrite <- IH. split; intros [H|H]; auto; left; congruence.
Qed.

Lemma part000_calls (env : Env) :
  valid_clock env ->
  calls Part000.mystery_movie env =
  Db (calendar_query "movie" (date_of env))
    :: match data (supabase_row env (calendar_query "movie" (date_of env))) with
       | Some row =>
           if has_movie (supabase_row env (calendar_query "movie" (date_of env)))
           then [Http (legacy_request env (lookup row "movie"))] else []
       | None => []
       end.
Proof.
  intros Hclock. unfold calls. rewrite (part000_run env Hclock). cbv zeta.
  unfold has_movie.
  destruct (supabase_row env (calendar_query "movie" (date_of env))) as [d e].
  cbn [data error]. destruct e as [e|]; [destruct d; reflexivity|].
  destruct d as [row|]; [|reflexivity].
  destruct (truthy (lookup row "movie")); [|reflexivity].
  destruct (tmdb env _); [rewrite part_on_error_calls|]; reflexivity.
Qed.

Lemma api_mystery_movie_calls (env : Env) :
  valid_clock env ->
  calls Part001.api_mystery_movie env =
  Db (calendar_query "*" (date_of env))
    :: match data (supabase_row env (calendar_query "*" (date_of env))) with
       | Some row =>
           if has_movie (supabase_row env (calendar_query "*" (date_of env)))
           then [Http (Part001.details_request env (lookup row "movie"));
                 Http (Part001.credits_request env (lookup row "movie"))]
           else []
       | None => []
       end.
Proof.
  intros Hclock. unfold calls. rewrite (api_mystery_movie_run env Hclock). cbv zeta.
  unfold has_movie.
  destruct (supabase_row env (calendar_query "*" (date_of env))) as [d e].
  cbn [data error]. destruct e as [e|]; [destruct d; reflexivity|].
  destruct d as [row|]; [|reflexivity].
  destruct (truthy (lookup row "movie")); [|reflexivity].
  pose proof (fetchMovieDetails_calls env (lookup row "movie")
                [Db (calendar_query "*" (date_of env))]) as Hc.
  destruct (Part001.fetchMovieDetails (lookup row "movie") env _) as [[m|e] t];
    simpl in Hc; [|rewrite part_on_error_calls]; simpl; rewrite Hc; reflexivity.
Qed.

Lemma api_search_calls (env : Env) (query : value) :
  calls (Part001.api_search query) env =
  if truthy query then [Http (Part001.search_request env query)] else [].
Proof.
  unfold calls, run, Part001.api_search, try_catch.
  destruct (truthy query); [|reflexivity]. cbn [negb]. eff.
  destruct (tmdb env (Part001.search_request env query)) as [e|up].
  - apply part_on_error_calls.
  - destruct (rdata up); try reflexivity; apply part_on_error_calls.
Qed.

Lemma api_movie_calls (env : Env) (movie_id : option string) :
  calls (Part001.api_movie movie_id) env =
  if truthy (Part001.param movie_id)
  then [Http (Part001.details_request env (Part001.param movie_id));
        Http (Part001.credits_request env (Part001.param movie_id))]
  else [].
Proof.
  unfold calls, run, Part001.api_movie, try_catch at 1. cbv zeta.
  destruct (truthy (Part001.param movie_id)); [|reflexivity]. cbn [negb]. unfold bind.
  pose proof (fetchMovieDetails_calls env (Part001.param movie_id) []) as Hc.
  destruct (Part001.fetchMovieDetails (Part001.param movie_id) env []) as [[m|e] t];
    simpl in Hc; [|rewrite part_on_error_calls]; simpl; rewrite Hc; reflexivity.
Qed.

(** What the handler of server.js adds to the calls of the lookup. *)
Lemma finish_shape (currentDate : string) (d : option object) (e : option PostgrestError)
    (env : Env) (t : list call) :
  exists extra,
    snd (try_catch (ServerJs.finish currentDate d e) ServerJs.on_error env t)
    = (t ++ extra)%list
    /\ (extra = []
        \/ (extra = [Db (ServerJs.all_query (Some 10%nat))] /\ d = None /\ e = None)
        \/ exists row, d = Some row /\ e = None
                       /\ truthy (ServerJs.movieId_of row) = true
                       /\ extra = [Http (legacy_request env (ServerJs.movieId_of row))]).
Proof.
  unfold ServerJs.finish. destruct e as [e|].
  - exists []. split; [eff; simpl; rewrite app_nil_r; reflexivity | auto].
  - destruct d as [row|].
    + unfold ServerJs.respond. eff.
      destruct (truthy (ServerJs.movieId_of row)) eqn:Ht; simpl.
      * exists [Http (legacy_request env (ServerJs.movieId_of row))].
        split; [|right; right; exists row; auto].
        match goal with |- context [tmdb env ?r] => destruct (tmdb env r) end;
          [rewrite on_error_calls|]; reflexivity.
      * exists []. split; [rewrite app_nil_r; reflexivity | auto].
    + exists [Db (ServerJs.all_query (Some 10%nat))]. eff. simpl. split; [reflexivity|].
      right. left. auto.
Qed.

Lemma http_requests_select (env : Env) (currentDate : string) :
  http_requests (snd (ServerJs.select_entry currentDate env [])) = [].
Proof.
  rewrite select_entry_calls. simpl.
  destruct (retry_needed env currentDate), (scan_needed env currentDate); reflexivity.
Qed.

Lemma serverjs_http_requests (env : Env) :
  http_requests (calls ServerJs.mystery_movie env) = []
  \/ exists row, truthy (ServerJs.movieId_of row) = true
                 /\ http_requests (calls ServerJs.mystery_movie env)
                    = [legacy_request env (ServerJs.movieId_of row)].
Proof.
  destruct (clock_dec env) as [Hclock|Hclock].
  - unfold calls. rewrite (serverjs_run env Hclock).
    pose proof (http_requests_select env (date_of env)) as Hsel.
    destruct (ServerJs.select_entry (date_of env) env []) as [[[early|[d e]]|err] t];
      simpl in Hsel.
    + left. exact Hsel.
    + destruct (finish_shape (date_of env) d e env t) as [extra [Hx Hshape]].
      rewrite Hx, http_requests_app, Hsel. simpl.
      destruct Hshape as [->|[[-> _]|[row [_ [_ [Ht ->]]]]]]; [left | left | right];
        try reflexivity.
      exists row. split; [exact Ht | reflexivity].
    + left. rewrite on_error_calls. exact Hsel.
  - left. destruct (invalid_clock_answers env Hclock) as [_ [H _]].
    unfold calls. rewrite H. reflexivity.
Qed.

Lemma well_formed_legacy (env : Env) (movieId : value) :
  well_formed env "en-US" (legacy_request env movieId).
Proof. repeat split. eexists. reflexivity. Qed.

Lemma well_formed_details (env : Env) (movieId : value) :
  well_formed env "pl-PL" (Part001.details_request env movieId)
  /\ well_formed env "pl-PL" (Part001.credits_request env movieId).
Proof. repeat split; eexists; reflexivity. Qed.

Lemma well_formed_search (env : Env) (query : value) :
  well_formed env "pl-PL" (Part001.search_request env query).
Proof. repeat split. eexists. reflexivity. Qed.

(** X2.  Every request a handler sends goes to the metadata service, under
    [https://api.themoviedb.org/3], and carries the configured [api_key]; the
    language sent is [en-US] from the legacy handlers and [pl-PL] from the
    [/api] routes, whatever the request asks for. *)
Theorem requests_are_well_formed (env : Env) (r : Request) :
  (In (Http r) (calls Part000.mystery_movie env)
   \/ In (Http r) (calls ServerJs.mystery_movie env) ->
   well_formed env "en-US" r)
  /\ (In (Http r) (calls Part001.api_mystery_movie env)
      \/ (exists query, In (Http r) (calls (Part001.api_search query) env))
      \/ (exists movie_id, In (Http r) (calls (Part001.api_movie movie_id) env)) ->
      well_formed env "pl-PL" r).
Proof.
  split.
  - intros [H|H].
    + destruct (clock_dec env) as [Hclock|Hclock].
      * rewrite (part000_calls env Hclock) in H.
        destruct H as [H|H]; [discriminate|].
        destruct (data (supabase_row env _)) as [row|]; [|destruct H].
        destruct (has_movie _); [|destruct H].
        destruct H as [H|[]]. inversion H. apply well_formed_legacy.
      * destruct (invalid_clock_answers env Hclock) as [E _].
        unfold calls in H. rewrite E in H. destruct H.
    + apply http_requests_in in H.
      destruct (serverjs_http_requests env) as [E|[row [_ E]]]; rewrite E in H.
      * destruct H.
      * destruct H as [<-|[]]. apply well_formed_legacy.
  - intros [H|[[query H]|[movie_id H]]].
    + destruct (clock_dec env) as [Hclock|Hclock].
      * rewrite (api_mystery_movie_calls env Hclock) in H.
        destruct H as [H|H]; [discriminate|].
        destruct (data (supabase_row env _)) as [row|]; [|destruct H].
        destruct (has_movie _); [|destruct H].
        destruct H as [H|[H|[]]]; inversion H; apply well_formed_details.
      * destruct (invalid_clock_answers env Hclock) as [_ [_ E]].
        unfold calls in H. rewrite E in H. destruct H.
    + rewrite api_search_calls in H. destruct (truthy query); [|destruct H].
      destruct H as [H|[]]. inversion H. apply well_formed_search.
    + rewrite api_movie_calls in H. destruct (truthy _); [|destruct H].
      destruct H as [H|[H|[]]]; inversion H; apply well_formed_details.
Qed.

Lemma requests_are_well_formed_witness :
  well_formed (Sample.with_row []) "pl-PL"
    {| url := "https://api.themoviedb.org/3/search/movie";
       params := [("api_key", VStr "k"); ("query", VStr "fight");
                  ("language", VStr "pl-PL")] |}.
Proof.
  apply (proj2 (requests_are_well_formed (Sample.with_row []) _)).
  right. left. exists (VStr "fight"). left. reflexivity.
Defined.

(** X3.  The legacy handler of part_000 and [/api/mystery_movie] ask the
    database once, first, for the row whose [date] is today's date (the
    [movie] column in part_000, every column in part_001).  They go on to the
    metadata service exactly when the reply has no error and a row whose
    [movie] field is truthy: one request in part_000, the details and the
    credits request in part_001, for that field's value; otherwise the
    database query is the only call. *)
Theorem calendar_first_then_metadata (env : Env) :
  valid_clock env ->
  calls Part000.mystery_movie env
  = Db (calendar_query "movie" (date_of env))
      :: match data (supabase_row env (calendar_query "movie" (date_of env))) with
         | Some row =>
             if has_movie (supabase_row env (calendar_query "movie" (date_of env)))
             then [Http (legacy_request env (lookup row "movie"))] else []
         | None => []
         end
  /\ calls Part001.api_mystery_movie env
     = Db (calendar_query "*" (date_of env))
         :: match data (supabase_row env (calendar_query "*" (date_of env))) with
            | Some row =>
                if has_movie (supabase_row env (calendar_query "*" (date_of env)))
                then [Http (Part001.details_request env (lookup row "movie"));
                      Http (Part001.credits_request env (lookup row "movie"))]
                else []
            | None => []
            end.
Proof.
  intros Hclock. split; [apply part000_calls | apply api_mystery_movie_calls]; exact Hclock.
Qed.

Lemma calendar_first_then_metadata_witness :
  calls Part001.api_mystery_movie
    (Sample.with_row [("date", VStr "2024-01-15"); ("movie", VStr "")])
  = [Db (calendar_query "*" "2024-01-15")].
Proof.
  assert (Hclock : valid_clock
                     (Sample.with_row [("date", VStr "2024-01-15"); ("movie", VStr "")])).
  { unfold valid_clock. simpl. unfold Sample.noon. lia. }
  exact (proj2 (calendar_first_then_metadata _ Hclock)).
Defined.

(** ** Beyond the claims: server.js after the lookup *)

Lemma or_else_truthy (a b : value) :
  truthy b = true -> truthy (or_else a b) = true.
Proof. unfold or_else. destruct (truthy a) eqn:E; auto. Qed.

Lemma database_error_shape (e : PostgrestError) :
  code (ServerJs.database_error e) = 500
  /\ lookup (body (ServerJs.database_error e)) "error" = VStr "Database error"
  /\ truthy (lookup (body (ServerJs.database_error e)) "details") = true.
Proof.
  repeat split. unfold ServerJs.database_error. simpl. apply or_else_truthy. reflexivity.
Qed.

Lemma serverjs_on_error_shape (err : Error) (env : Env) (t : list call) :
  exists resp,
    ServerJs.on_error err env t = (Return resp, t)
    /\ (lookup (body resp) "error" = VStr "Failed to fetch movie from TheMovieDB"
        \/ lookup (body resp) "error" = VStr "Internal server error")
    /\ truthy (lookup (body resp) "details") = true.
Proof.
  unfold ServerJs.on_error. destruct (response err); eexists;
    (split; [reflexivity|]); (split; [auto|]); simpl; apply or_else_truthy; reflexivity.
Qed.

(** The four ways the handler of server.js ends once the lookup is over. *)
Lemma finish_outcome (currentDate : string) (d : option object)
    (e : option PostgrestError) (env : Env) (t : list call) :
  (exists e', e = Some e'
              /\ try_catch (ServerJs.finish currentDate d e) ServerJs.on_error env t
                 = (Return (ServerJs.database_error e'), t))
  \/ (d = None /\ e = None
      /\ try_catch (ServerJs.finish currentDate d e) ServerJs.on_error env t
         = (Return (ServerJs.not_found currentDate
                      (data (supabase_rows env (ServerJs.all_query (Some 10%nat))))),
            (t ++ [Db (ServerJs.all_query (Some 10%nat))])%list))
  \/ (exists row, d = Some row /\ e = None
                  /\ truthy (ServerJs.movieId_of row) = false
                  /\ try_catch (ServerJs.finish currentDate d e) ServerJs.on_error env t
                     = (Return (json 500 [("error", VStr "Movie ID column not found");
                                          ("availableFields", VArr (map VStr (keys row)))]),
                        t))
  \/ (exists row, d = Some row /\ e = None
                  /\ truthy (ServerJs.movieId_of row) = true
                  /\ match tmdb env (legacy_request env (ServerJs.movieId_of row)) with
                     | inr up =>
                         try_catch (ServerJs.finish currentDate d e) ServerJs.on_error env t
                         = (Return (json 200 [("date", VStr currentDate);
                                              ("movie", rdata up)]),
                            (t ++ [Http (legacy_request env (ServerJs.movieId_of row))])%list)
                     | inl err =>
                         try_catch (ServerJs.finish currentDate d e) ServerJs.on_error env t
                         = ServerJs.on_error err env
                             (t ++ [Http (legacy_request env (ServerJs.movieId_of row))])%list
                     end).
Proof.
  unfold ServerJs.finish. destruct e as [e|].
  - left. exists e. split; reflexivity.
  - destruct d as [row|].
    + unfold ServerJs.respond. eff. cbv zeta.
      destruct (truthy (ServerJs.movieId_of row)) eqn:Ht.
      * right. right. right. exists row. rewrite Ht.
        split; [reflexivity|]. split; [reflexivity|]. split; [reflexivity|].
        cbn [negb]. fold (legacy_request env (ServerJs.movieId_of row)).
        destruct (tmdb env (legacy_request env (ServerJs.movieId_of row))); reflexivity.
      * right. right. left. exists row. rewrite Ht. repeat split.
    + right. left. repeat split.
Qed.

(** X4.  In server.js, when the primary query fails on a missing relation and
    the retry on [Calendar] returns today's row, the handler goes on with that
    row: neither the scan nor any further query is made, the metadata service
    is asked for the first truthy candidate field, and its answer is sent
    back with today's date. *)
Theorem retry_row_is_served (env : Env) (e : PostgrestError) (row : object) (v : value)
    (up : AxiosResponse) :
  valid_clock env ->
  error (supabase_row env (ServerJs.primary_query "calendar" (date_of env))) = Some e ->
  ServerJs.missing_relation e = true ->
  supabase_row env (ServerJs.primary_query "Calendar" (date_of env))
  = {| data := Some row; error := None |} ->
  first_truthy row candidates = Some v ->
  tmdb env (legacy_request env v) = inr up ->
  run ServerJs.mystery_movie env
  = (Return (json 200 [("date", VStr (date_of env)); ("movie", rdata up)]),
     [Db (ServerJs.primary_query "calendar" (date_of env));
      Db (ServerJs.primary_query "Calendar" (date_of env));
      Http (legacy_request env v)]).
Proof.
  intros Hclock He Hm H2 Hv Hup.
  assert (Hr : retry_needed env (date_of env) = true).
  { unfold retry_needed. rewrite He. exact Hm. }
  assert (Hs : settled env (date_of env) = {| data := Some row; error := None |}).
  { unfold settled. rewrite Hr, H2. reflexivity. }
  assert (Hsel : ServerJs.select_entry (date_of env) env []
                 = (Return (inr (Some row, None)),
                    [Db (ServerJs.primary_query "calendar" (date_of env));
                     Db (ServerJs.primary_query "Calendar" (date_of env))])).
  { unfold ServerJs.select_entry, bind at 1. rewrite lookup_today_run, Hs, Hr.
    reflexivity. }
  rewrite (serverjs_run env Hclock), Hsel.
  pose proof (movieId_of_priority row) as P. rewrite Hv in P. destruct P as [Hid Ht].
  destruct (finish_outcome (date_of env) (Some row) None env
              [Db (ServerJs.primary_query "calendar" (date_of env));
               Db (ServerJs.primary_query "Calendar" (date_of env))])
    as [[e' [H _]]|[[H _]|[[row' [H [_ [Hf _]]]]|[row' [H [_ [_ Hrun]]]]]]];
    try discriminate.
  - inversion H. subst row'. rewrite Hid, Ht in Hf. discriminate.
  - inversion H. subst row'. rewrite Hid, Hup in Hrun. exact Hrun.
Qed.

Lemma retry_row_is_served_witness :
  run ServerJs.mystery_movie Sample.miscased
  = (Return (json 200 [("date", VStr "2024-01-15"); ("movie", Sample.fight_club)]),
     [Db (ServerJs.primary_query "calendar" "2024-01-15");
      Db (ServerJs.primary_query "Calendar" "2024-01-15");
      Http {| url := "https://api.themoviedb.org/3/movie/550";
              params := [("api_key", VStr "k"); ("language", VStr "en-US")] |}]).
Proof.
  assert (Hclock : valid_clock Sample.miscased).
  { unfold valid_clock. simpl. unfold Sample.noon. lia. }
  exact (retry_row_is_served Sample.miscased Sample.relation_error
           [("date", VStr "2024-01-15"); ("movie", VNum 550)] (VNum 550)
           {| status := 200; rdata := Sample.fight_club |}
           Hclock eq_refl eq_refl eq_refl eq_refl eq_refl).
Defined.

(** X5.  In server.js, when the lookup and the scan end without row and
    without error, the handler asks for ten rows of [calendar] and answers 404
    with the date it searched and a [debug] object: [totalEntries] is the
    number of rows that query returned, [sampleEntries] its first three rows
    at most, [entryDates] one entry per row.  An error of that query is not
    reported: the rows then count as none. *)
Theorem not_found_is_explained (env : Env) (t : list call) :
  valid_clock env ->
  run (ServerJs.select_entry (date_of env)) env = (Return (inr (None, None)), t) ->
  exists resp debug dates,
    run ServerJs.mystery_movie env
    = (Return resp, (t ++ [Db (ServerJs.all_query (Some 10%nat))])%list)
    /\ code resp = 404
    /\ lookup (body resp) "error" = VStr "No movie found for today"
    /\ lookup (body resp) "searchedDate" = VStr (date_of env)
    /\ lookup (body resp) "debug" = VObj debug
    /\ (let rows := match data (supabase_rows env (ServerJs.all_query (Some 10%nat))) with
                    | Some l => l
                    | None => []
                    end in
        lookup debug "totalEntries" = VNum (Z.of_nat (List.length rows))
        /\ lookup debug "sampleEntries" = VArr (map VObj (firstn 3 rows))
        /\ (List.length (firstn 3 rows) <= 3)%nat
        /\ lookup debug "entryDates" = VArr dates
        /\ List.length dates = List.length rows).
Proof.
  intros Hclock Hsel. unfold run in Hsel.
  rewrite (serverjs_run env Hclock), Hsel.
  destruct (finish_outcome (date_of env) None None env t)
    as [[e' [H _]]|[[_ [_ Hrun]]|[[row' [H _]]|[row' [H _]]]]]; try discriminate.
  rewrite Hrun. unfold ServerJs.not_found.
  destruct (data (supabase_rows env (ServerJs.all_query (Some 10%nat)))) as [rows|].
  - eexists. eexists. eexists. split; [reflexivity|].
    cbn [code body json lookup String.eqb Ascii.eqb Bool.eqb].
    repeat split.
    + unfold or_else. simpl. destruct rows; reflexivity.
    + apply firstn_le_length.
    + rewrite length_map. reflexivity.
  - eexists. eexists. exists []. split; [reflexivity|]. repeat split. simpl. lia.
Qed.

Lemma not_found_is_explained_witness :
  exists resp t,
    run ServerJs.mystery_movie World.empty = (Return resp, t)
    /\ code resp = 404.
Proof.
  assert (Hclock : valid_clock World.empty).
  { unfold valid_clock. simpl. unfold Sample.noon. lia. }
  destruct (not_found_is_explained _ _ Hclock eq_refl)
    as [resp [debug [dates [Hrun [Hcode _]]]]].
  exists resp. eexists. split; [exact Hrun | exact Hcode].
Defined.

(** Every answer of the handler of server.js is of one of five kinds. *)
Lemma serverjs_answer_cases (env : Env) :
  exists resp t,
    run ServerJs.mystery_movie env = (Return resp, t)
    /\ ((exists e, resp = ServerJs.database_error e /\ http_requests t = [])
        \/ (exists rows, resp = ServerJs.not_found (date_of env) rows)
        \/ (exists row, resp = json 500 [("error", VStr "Movie ID column not found");
                                         ("availableFields", VArr (map VStr (keys row)))])
        \/ (exists up, resp = json 200 [("date", VStr (date_of env)); ("movie", rdata up)])
        \/ ((lookup (body resp) "error" = VStr "Failed to fetch movie from TheMovieDB"
             \/ lookup (body resp) "error" = VStr "Internal server error")
            /\ truthy (lookup (body resp) "details") = true)).
Proof.
  destruct (clock_dec env) as [Hclock|Hclock].
  - rewrite (serverjs_run env Hclock).
    pose proof (select_entry_early env (date_of env) []) as Hearly.
    pose proof (http_requests_select env (date_of env)) as Hhttp.
    destruct (ServerJs.select_entry (date_of env) env []) as [[[early|[d e]]|err] t];
      simpl in Hearly, Hhttp.
    + destruct (Hearly early eq_refl) as [e ->].
      eexists. eexists. split; [reflexivity|]. left. exists e. auto.
    + destruct (finish_outcome (date_of env) d e env t)
        as [[e' [_ H]]|[[_ [_ H]]|[[row [_ [_ [_ H]]]]|[row [_ [_ [_ H]]]]]]].
      * rewrite H. eexists. eexists. split; [reflexivity|]. left. exists e'. auto.
      * rewrite H. eexists. eexists. split; [reflexivity|]. right. left. eauto.
      * rewrite H. eexists. eexists. split; [reflexivity|]. right. right. left. eauto.
      * destruct (tmdb env (legacy_request env (ServerJs.movieId_of row))) as [err|up].
        -- rewrite H.
           destruct (serverjs_on_error_shape err env
                       (t ++ [Http (legacy_request env (ServerJs.movieId_of row))])%list)
             as [resp [E Hs]].
           rewrite E. eexists. eexists. split; [reflexivity|]. auto.
        -- rewrite H. eexists. eexists. split; [reflexivity|].
           right. right. right. left. eauto.
    + destruct (serverjs_on_error_shape err env t) as [resp [E Hs]].
      rewrite E. eexists. eexists. split; [reflexivity|]. auto.
  - destruct (invalid_clock_answers env Hclock) as [_ [H _]]. rewrite H.
    eexists. eexists. split; [reflexivity|].
    right. right. right. right. split; [right|]; reflexivity.
Qed.

(** X6.  Every [details] field the handler of server.js sends is truthy: a
    missing or empty message is replaced by [Unknown error].  The handler of
    part_000 has no such fallback: a database error without message is
    answered with [details] undefined. *)
Theorem details_are_never_empty (env : Env) (resp : Response) :
  (answer ServerJs.mystery_movie env = Return resp ->
   has_key (body resp) "details" = true ->
   truthy (lookup (body resp) "details") = true)
  /\ (valid_clock env ->
      error (supabase_row env (calendar_query "movie" (date_of env)))
      = Some {| pg_message := None |} ->
      answer Part000.mystery_movie env
      = Return (json 500 [("error", VStr "Database error"); ("details", VUndefined)])).
Proof.
  split.
  - intros Hans Hkey. unfold answer in Hans.
    destruct (serverjs_answer_cases env) as [resp' [t [Hrun Hcases]]].
    rewrite Hrun in Hans. simpl in Hans. inversion Hans. subst resp'.
    destruct Hcases as [[e [-> _]]|[[rows ->]|[[row ->]|[[up ->]|[_ H]]]]];
      try discriminate.
    + apply database_error_shape.
    + exact H.
  - intros Hclock He. unfold answer. rewrite (part000_run env Hclock). cbv zeta.
    rewrite He. reflexivity.
Qed.

Lemma details_are_never_empty_witness :
  truthy (VStr "relation public.calendar does not exist") = true.
Proof.
  assert (Hclock : valid_clock Sample.no_table).
  { unfold valid_clock. simpl. unfold Sample.noon. lia. }
  exact (proj1 (details_are_never_empty Sample.no_table
                  (json 500 [("error", VStr "Database error");
                             ("details", VStr "relation public.calendar does not exist")]))
           eq_refl eq_refl).
Defined.

(** X7.  An answer [Database error] has status 500 and is given before the
    metadata service is asked: no request to it is among the calls, in each of
    the three handlers that read the calendar. *)
Theorem database_error_stops_the_request (env : Env) (resp : Response) :
  lookup (body resp) "error" = VStr "Database error" ->
  (answer Part000.mystery_movie env = Return resp ->
   code resp = 500 /\ http_requests (calls Part000.mystery_movie env) = [])
  /\ (answer ServerJs.mystery_movie env = Return resp ->
      code resp = 500 /\ http_requests (calls ServerJs.mystery_movie env) = [])
  /\ (answer Part001.api_mystery_movie env = Return resp ->
      code resp = 500 /\ http_requests (calls Part001.api_mystery_movie env) = []).
Proof.
  intros Herr. split; [|split].
  - unfold answer, calls. destruct (clock_dec env) as [Hclock|Hclock].
    + rewrite (part000_run env Hclock). cbv zeta.
      destruct (supabase_row env (calendar_query "movie" (date_of env))) as [d e].
      cbn [data error]. destruct e as [e|].
      * simpl. intros H. inversion H. auto.
      * destruct d as [row|]; [|intros H; inversion H; subst; discriminate].
        destruct (truthy (lookup row "movie"));
          [|intros H; inversion H; subst; discriminate].
        destruct (tmdb env _) as [err|up].
        -- unfold Part000.on_error. destruct (response err);
             intros H; inversion H; subst; discriminate.
        -- intros H. inversion H. subst. discriminate.
    + destruct (invalid_clock_answers env Hclock) as [E _]. rewrite E.
      intros H. inversion H. subst. discriminate.
  - unfold answer, calls.
    destruct (serverjs_answer_cases env) as [resp' [t [Hrun Hcases]]].
    rewrite Hrun. simpl. intros H. inversion H. subst resp'.
    destruct Hcases as [[e [-> Hhttp]]|[[rows ->]|[[row ->]|[[up ->]|[[H1|H1] _]]]]];
      try discriminate; try (rewrite H1 in Herr; discriminate).
    auto.
  - unfold answer, calls. destruct (clock_dec env) as [Hclock|Hclock].
    + rewrite (api_mystery_movie_run env Hclock). cbv zeta.
      destruct (supabase_row env (calendar_query "*" (date_of env))) as [d e].
      cbn [data error]. destruct e as [e|].
      * simpl. intros H. inversion H. auto.
      * destruct d as [row|]; [|intros H; inversion H; subst; discriminate].
        destruct (truthy (lookup row "movie"));
          [|intros H; inversion H; subst; discriminate].
        destruct (Part001.fetchMovieDetails _ env _) as [[m|err] t].
        -- intros H. inversion H. subst. discriminate.
        -- unfold Part000.on_error. destruct (response err);
             intros H; inversion H; subst; discriminate.
    + destruct (invalid_clock_answers env Hclock) as [_ [_ E]]. rewrite E.
      intros H. inversion H. subst. discriminate.
Qed.

Lemma database_error_stops_the_request_witness :
  http_requests (calls ServerJs.mystery_movie Sample.no_table) = [].
Proof.
  exact (proj2 (proj1 (proj2 (database_error_stops_the_request Sample.no_table
           (json 500 [("error", VStr "Database error");
                      ("details", VStr "relation public.calendar does not exist")])
           eq_refl)) eq_refl)).
Defined.

(** ** Beyond the claims: the [/api] routes *)

(** [fetchMovieDetails] sees its argument only through the string it prints
    into the two addresses. *)
Lemma fetchMovieDetails_by_string (env : Env) (v v' : value) (t t' : list call) :
  ToString v = ToString v' ->
  fst (Part001.fetchMovieDetails v env t) = fst (Part001.fetchMovieDetails v' env t').
Proof.
  intros H.
  assert (Hd : Part001.details_request env v = Part001.details_request env v').
  { unfold Part001.details_request. rewrite H. reflexivity. }
  assert (Hc : Part001.credits_request env v = Part001.credits_request env v').
  { unfold Part001.credits_request. rewrite H. reflexivity. }
  destruct (tmdb env (Part001.details_request env v)) as [e1|md] eqn:E1,
           (tmdb env (Part001.credits_request env v)) as [e2|cr] eqn:E2.
  - rewrite (fetchMovieDetails_rejected env v t (if first_rejects_first env then e1 else e2))
      by (rewrite E1, E2; reflexivity).
    rewrite (fetchMovieDetails_rejected env v' t' (if first_rejects_first env then e1 else e2))
      by (rewrite <- Hd, <- Hc, E1, E2; reflexivity).
    reflexivity.
  - rewrite (fetchMovieDetails_rejected env v t e1) by (rewrite E1, E2; reflexivity).
    rewrite (fetchMovieDetails_rejected env v' t' e1)
      by (rewrite <- Hd, <- Hc, E1, E2; reflexivity).
    reflexivity.
  - rewrite (fetchMovieDetails_rejected env v t e2) by (rewrite E1, E2; reflexivity).
    rewrite (fetchMovieDetails_rejected env v' t' e2)
      by (rewrite <- Hd, <- Hc, E1, E2; reflexivity).
    reflexivity.
  - rewrite (fetchMovieDetails_resolved env v t md cr E1 E2).
    rewrite Hd in E1. rewrite Hc in E2.
    rewrite (fetchMovieDetails_resolved env v' t' md cr E1 E2). reflexivity.
Qed.

Lemma part_on_error_fst (failed : string) (e : Error) (env : Env) (t t' : list call) :
  fst (Part000.on_error failed e env t) = fst (Part000.on_error failed e env t').
Proof. unfold Part000.on_error. destruct (response e); reflexivity. Qed.

(** X8.  [/api/mystery_movie] and [/api/movie/:movie_id] agree on the movie
    of the day: when today's row holds the identifier [movie], printed [s],
    the first answers with the same status, the same [movie] and, on failure,
    the same [error] and [details] as the second does for [s]. *)
Theorem mystery_movie_is_movie_of_the_day (env : Env) (row : object) (s : string) :
  valid_clock env ->
  supabase_row env (calendar_query "*" (date_of env)) = {| data := Some row; error := None |} ->
  truthy (lookup row "movie") = true ->
  ToString (lookup row "movie") = s ->
  s <> "" ->
  exists daily direct,
    answer Part001.api_mystery_movie env = Return daily
    /\ answer (Part001.api_movie (Some s)) env = Return direct
    /\ code daily = code direct
    /\ lookup (body daily) "movie" = lookup (body direct) "movie"
    /\ lookup (body daily) "error" = lookup (body direct) "error"
    /\ lookup (body daily) "details" = lookup (body direct) "details".
Proof.
  intros Hclock Hrow Ht Hs Hne. unfold answer.
  rewrite (api_mystery_movie_run env Hclock). cbv zeta. rewrite Hrow. cbn [data error].
  rewrite Ht. rewrite (api_movie_run env s Hne).
  pose proof (fetchMovieDetails_by_string env (lookup row "movie") (VStr s)
                [Db (calendar_query "*" (date_of env))] [] Hs) as Hsame.
  destruct (Part001.fetchMovieDetails (lookup row "movie") env _) as [[m|e] t],
           (Part001.fetchMovieDetails (VStr s) env []) as [[m'|e'] t'];
    simpl in Hsame; inversion Hsame; subst.
  - eexists. eexists. repeat split.
  - rewrite (part_on_error_fst _ e' env t t').
    destruct (part_on_error_returns "Failed to fetch movie from TheMovieDB" e' env t')
      as [resp [E _]].
    rewrite E. exists resp, resp. repeat split.
Qed.

Lemma mystery_movie_is_movie_of_the_day_witness :
  exists daily direct,
    answer Part001.api_mystery_movie
      (Sample.with_row [("date", VStr "2024-01-15"); ("movie", VNum 550)]) = Return daily
    /\ answer (Part001.api_movie (Some "550"))
         (Sample.with_row [("date", VStr "2024-01-15"); ("movie", VNum 550)]) = Return direct
    /\ lookup (body daily) "movie" = lookup (body direct) "movie".
Proof.
  assert (Hclock : valid_clock
                     (Sample.with_row [("date", VStr "2024-01-15"); ("movie", VNum 550)])).
  { unfold valid_clock. simpl. unfold Sample.noon. lia. }
  assert (Hne : "550" <> "") by discriminate.
  destruct (mystery_movie_is_movie_of_the_day _ _ "550" Hclock eq_refl eq_refl eq_refl Hne)
    as [daily [direct [H1 [H2 [_ [H3 _]]]]]].
  exists daily, direct. auto.
Defined.

(** X9.  [/api/search] maps a failed search like the other routes map a
    failed fetch: an error with a response of the metadata service is answered
    with that response's status, [Failed to search movies from TheMovieDB],
    and the service's [status_message] when it has a truthy one, the error's
    own message otherwise; an error without response is answered 500,
    [Internal server error], with the error's message. *)
Theorem search_errors_pass_through (env : Env) (query : value) (e : Error) :
  truthy query = true ->
  tmdb env (Part001.search_request env query) = inl e ->
  exists resp,
    answer (Part001.api_search query) env = Return resp
    /\ match response e with
       | Some r =>
           code resp = status r
           /\ lookup (body resp) "error" = VStr "Failed to search movies from TheMovieDB"
           /\ (truthy (get_opt (rdata r) "status_message") = true ->
               lookup (body resp) "details" = get_opt (rdata r) "status_message")
           /\ (truthy (get_opt (rdata r) "status_message") = false ->
               lookup (body resp) "details" = VStr (message e))
       | None =>
           code resp = 500
           /\ lookup (body resp) "error" = VStr "Internal server error"
           /\ lookup (body resp) "details" = VStr (message e)
       end.
Proof.
  intros Ht He. unfold answer, run, Part001.api_search, try_catch. rewrite Ht.
  cbn [negb]. eff. rewrite He. unfold Part001.on_error, Part000.on_error.
  destruct (response e) as [r|]; eexists; (split; [reflexivity|]).
  - repeat split; simpl; unfold or_else; intros H; rewrite H; reflexivity.
  - repeat split.
Qed.

Lemma search_errors_pass_through_witness :
  exists resp,
    answer (Part001.api_search (VStr "fight")) (World.always (inl Sample.not_found_error))
    = Return resp
    /\ code resp = 404.
Proof.
  destruct (search_errors_pass_through (World.always (inl Sample.not_found_error))
              (VStr "fight") Sample.not_found_error eq_refl eq_refl)
    as [resp [H [Hcode _]]].
  exists resp. split; [exact H | exact Hcode].
Defined.

(** X10.  A 2xx answer of the metadata service that is not a JSON object is
    not refused.  In [/api/search] a payload [null] (or [undefined]) ends in
    500 [Internal server error], any other payload that is not an object in
    200 with [results], [total_results], [page] and [total_pages] undefined.
    In [/api/movie/:movie_id] a credits payload [null] ends in 500
    [Internal server error] although both requests succeeded. *)
Theorem payloads_are_not_checked (env : Env) :
  (forall query up,
      truthy query = true ->
      tmdb env (Part001.search_request env query) = inr up ->
      (rdata up = VNull \/ rdata up = VUndefined ->
       exists details,
         answer (Part001.api_search query) env
         = Return (json 500 [("error", VStr "Internal server error");
                             ("details", VStr details)]))
      /\ (rdata up <> VNull -> rdata up <> VUndefined ->
          (forall o, rdata up <> VObj o) ->
          answer (Part001.api_search query) env
          = Return (json 200 [("query", query);
                              ("results", VUndefined);
                              ("total_results", VUndefined);
                              ("page", VUndefined);
                              ("total_pages", VUndefined)])))
  /\ (forall s md cr,
         s <> "" ->
         tmdb env (Part001.details_request env (VStr s)) = inr md ->
         tmdb env (Part001.credits_request env (VStr s)) = inr cr ->
         rdata cr = VNull ->
         answer (Part001.api_movie (Some s)) env
         = Return (json 500 [("error", VStr "Internal server error");
                             ("details",
                              VStr "Cannot read properties of null (reading 'cast')")])).
Proof.
  split.
  - intros query up Ht Hup. split.
    + intros Hnull. unfold answer, run, Part001.api_search, try_catch. rewrite Ht.
      cbn [negb]. eff. rewrite Hup.
      destruct Hnull as [-> | ->]; eexists; reflexivity.
    + intros H1 H2 H3. unfold answer, run, Part001.api_search, try_catch. rewrite Ht.
      cbn [negb]. eff. rewrite Hup.
      destruct (rdata up) as [| |b|n|s|l|o]; try reflexivity; try contradiction.
      exfalso. apply (H3 o). reflexivity.
  - intros s md cr Hs Hd Hc Hnull. unfold answer. rewrite (api_movie_run env s Hs).
    pose proof (fetchMovieDetails_resolved env (VStr s) [] md cr Hd Hc) as Hf.
    rewrite Hnull in Hf. simpl in Hf.
    destruct (Part001.fetchMovieDetails (VStr s) env []) as [[m|e] t];
      simpl in Hf; inversion Hf. reflexivity.
Qed.

Lemma payloads_are_not_checked_witness :
  answer (Part001.api_search (VStr "fight"))
    (World.always (inr {| status := 200; rdata := VStr "<html>" |}))
  = Return (json 200 [("query", VStr "fight");
                      ("results", VUndefined);
                      ("total_results", VUndefined);
                      ("page", VUndefined);
                      ("total_pages", VUndefined)]).
Proof.
  refine (proj2 (proj1 (payloads_are_not_checked
                          (World.always (inr {| status := 200; rdata := VStr "<html>" |})))
                   (VStr "fight")
                   {| status := 200; rdata := VStr "<html>" |} eq_refl eq_refl) _ _ _);
    intros; discriminate.
Defined.

Lemma keys_set (o : object) (k : string) (v : value) :
  keys (set o k v) = if has_key o k then keys o else (keys o ++ [k])%list.
Proof.
  unfold keys. induction o as [|[k0 v0] o IH]; simpl; [reflexivity|].
  destruct (k0 =? k)%string eqn:E; simpl; [reflexivity|].
  rewrite IH. destruct (has_key o k); reflexivity.
Qed.

(** X11.  The object [fetchMovieDetails] returns lists the fields of the
    details payload first, in their order; [cast] and [crew] are appended, in
    this order, unless the details payload has a field of that name, which
    then keeps its place and takes the value from the credits. *)
Theorem enriched_movie_keeps_field_order (env : Env) (movieId : value)
    (md cr : AxiosResponse) (details credits : object) :
  tmdb env (Part001.details_request env movieId) = inr md ->
  tmdb env (Part001.credits_request env movieId) = inr cr ->
  rdata md = VObj details ->
  rdata cr = VObj credits ->
  exists movie,
    fst (run (Part001.fetchMovieDetails movieId) env) = Return movie
    /\ keys movie
       = (keys details
            ++ (if has_key details "cast" then [] else ["cast"])
            ++ (if has_key details "crew" then [] else ["crew"]))%list
    /\ lookup movie "cast" = lookup credits "cast"
    /\ lookup movie "crew" = lookup credits "crew".
Proof.
  intros Hd Hc Hmd Hcr. unfold run.
  rewrite (fetchMovieDetails_resolved env movieId [] md cr Hd Hc), Hmd, Hcr. simpl.
  eexists. split; [reflexivity|]. split; [|split].
  - rewrite !keys_set, has_key_set. simpl.
    destruct (has_key details "cast"), (has_key details "crew");
      rewrite <- ?app_assoc, ?app_nil_r; reflexivity.
  - rewrite lookup_set_other by discriminate. apply lookup_set_same.
  - apply lookup_set_same.
Qed.

Lemma enriched_movie_keeps_field_order_witness :
  exists movie,
    fst (run (Part001.fetchMovieDetails (VNum 550)) (Sample.with_row [])) = Return movie
    /\ keys movie = ["id"; "title"; "cast"; "crew"].
Proof.
  destruct (enriched_movie_keeps_field_order (Sample.with_row []) (VNum 550) _ _ _ _
              eq_refl eq_refl eq_refl eq_refl) as [movie [H [Hk _]]].
  exists movie. split; [exact H | exact Hk].
Defined.

(** X12.  The happy path of [/api/mystery_movie]: when today's row has a
    truthy [movie] and the metadata service answers both requests with JSON
    objects, the answer is 200 with today's date, the row's [quote_en],
    [quote_pl] and [description] as they are (undefined when the row lacks
    them), and the details extended with the credits' [cast] and [crew]; the
    calls are the calendar query and the two requests for the printed
    identifier. *)
Theorem daily_movie_is_served (env : Env) (row : object) (md cr : AxiosResponse)
    (details credits : object) :
  valid_clock env ->
  supabase_row env (calendar_query "*" (date_of env)) = {| data := Some row; error := None |} ->
  truthy (lookup row "movie") = true ->
  tmdb env (Part001.details_request env (lookup row "movie")) = inr md ->
  tmdb env (Part001.credits_request env (lookup row "movie")) = inr cr ->
  rdata md = VObj details ->
  rdata cr = VObj credits ->
  run Part001.api_mystery_movie env
  = (Return (json 200 [("date", VStr (date_of env));
                       ("quote_en", lookup row "quote_en");
                       ("quote_pl", lookup row "quote_pl");
                       ("description", lookup row "description");
                       ("movie", VObj (set (set details "cast" (lookup credits "cast"))
                                         "crew" (lookup credits "crew")))]),
     [Db (calendar_query "*" (date_of env));
      Http {| url := TMDB_BASE_URL ++ "/movie/" ++ ToString (lookup row "movie");
              params := [("api_key", VStr (TMDB_API_KEY env)); ("language", VStr "pl-PL")] |};
      Http {| url := TMDB_BASE_URL ++ "/movie/" ++ ToString (lookup row "movie") ++ "/credits";
              params := [("api_key", VStr (TMDB_API_KEY env)); ("language", VStr "pl-PL")] |}]).
Proof.
  intros Hclock Hrow Ht Hd Hc Hmd Hcr.
  rewrite (api_mystery_movie_run env Hclock). cbv zeta. rewrite Hrow. cbn [data error].
  rewrite Ht.
  pose proof (fetchMovieDetails_resolved env (lookup row "movie")
                [Db (calendar_query "*" (date_of env))] md cr Hd Hc) as Hf.
  pose proof (fetchMovieDetails_calls env (lookup row "movie")
                [Db (calendar_query "*" (date_of env))]) as Hcalls.
  rewrite Hmd, Hcr in Hf. simpl in Hf.
  destruct (Part001.fetchMovieDetails (lookup row "movie") env _) as [[m|e] t];
    simpl in Hf, Hcalls; inversion Hf. subst. reflexivity.
Qed.

Lemma daily_movie_is_served_witness :
  run Part001.api_mystery_movie
    (Sample.with_row [("date", VStr "2024-01-15"); ("movie", VNum 550);
                      ("quote_en", VStr "The first rule")])
  = (Return (json 200 [("date", VStr "2024-01-15");
                       ("quote_en", VStr "The first rule");
                       ("quote_pl", VUndefined);
                       ("description", VUndefined);
                       ("movie", VObj [("id", VNum 550); ("title", VStr "Fight Club");
                                       ("cast", VArr [VObj [("name", VStr "Edward Norton")]]);
                                       ("crew", VArr [VObj [("name", VStr "David Fincher")]])])]),
     [Db (calendar_query "*" "2024-01-15");
      Http {| url := "https://api.themoviedb.org/3/movie/550";
              params := [("api_key", VStr "k"); ("language", VStr "pl-PL")] |};
      Http {| url := "https://api.themoviedb.org/3/movie/550/credits";
              params := [("api_key", VStr "k"); ("language", VStr "pl-PL")] |}]).
Proof.
  assert (Hclock : valid_clock
                     (Sample.with_row [("date", VStr "2024-01-15"); ("movie", VNum 550);
                                       ("quote_en", VStr "The first rule")])).
  { unfold valid_clock. simpl. unfold Sample.noon. lia. }
  exact (daily_movie_is_served _ _ _ _ _ _ Hclock eq_refl eq_refl eq_refl eq_refl
           eq_refl eq_refl).
Defined.

(** ** Beyond the claims: dates in the scan *)

Lemma string_app_assoc (a b c : string) : (a ++ b) ++ c = a ++ (b ++ c).
Proof. induction a as [|x a IH]; simpl; [reflexivity | rewrite IH; reflexivity]. Qed.

Lemma string_app_nil_r (a : string) : a ++ "" = a.
Proof. induction a as [|x a IH]; simpl; [reflexivity | rewrite IH; reflexivity]. Qed.

(** A string without [T] is cut nowhere, and cutting stops at the first [T]. *)
Lemma split_T_0_app (a b : string) :
  split_T_0 a = a -> split_T_0 (a ++ b) = a ++ split_T_0 b.
Proof.
  induction a as [|c a IH]; simpl; [reflexivity|].
  destruct (Ascii.eqb c "T"); [discriminate|].
  intros H. inversion H as [H']. rewrite H'. rewrite (IH H'). reflexivity.
Qed.

Lemma pad_no_T (w : nat) (n : Z) (acc : string) :
  split_T_0 acc = acc -> split_T_0 (pad w n acc) = pad w n acc.
Proof.
  revert n acc. induction w as [|w IH]; intros n acc H; simpl; [exact H|].
  apply IH. simpl. rewrite digit_not_T, H. reflexivity.
Qed.

Lemma iso_year_no_T (y : Z) : split_T_0 (iso_year y) = iso_year y.
Proof.
  unfold iso_year. destruct ((0 <=? y) && (y <=? 9999)).
  - apply pad_no_T. reflexivity.
  - destruct (y <? 0); rewrite split_T_0_app by reflexivity;
      rewrite (pad_no_T 6 (Z.abs y) "" eq_refl); reflexivity.
Qed.

Lemma iso_date_no_T (t : Z) : split_T_0 (iso_date t) = iso_date t.
Proof.
  unfold iso_date. destruct (civil_from_days (t / msPerDay)) as [[y m] d].
  rewrite split_T_0_app by apply iso_year_no_T.
  rewrite (split_T_0_app "-") by reflexivity.
  rewrite split_T_0_app by (apply pad_no_T; reflexivity).
  rewrite (split_T_0_app "-") by reflexivity.
  rewrite pad_no_T by reflexivity. reflexivity.
Qed.

(** Cutting [toISOString()] at [T] leaves the date part. *)
Lemma split_iso_of_time (t : Z) : split_T_0 (iso_of_time t) = iso_date t.
Proof.
  pose proof (iso_date_no_T t) as H.
  unfold iso_of_time, iso_date in *.
  destruct (civil_from_days (t / msPerDay)) as [[y m] d].
  set (rest := pad 2 (t mod msPerDay / 3600000) "" ++ _).
  replace (iso_year y ++ "-" ++ pad 2 m "" ++ "-" ++ pad 2 d "" ++ "T" ++ rest)
    with ((iso_year y ++ "-" ++ pad 2 m "" ++ "-" ++ pad 2 d "") ++ "T" ++ rest).
  - rewrite (split_T_0_app _ _ H). simpl. apply string_app_nil_r.
  - repeat first [rewrite string_app_assoc | progress cbn [append]]. reflexivity.
Qed.

Lemma iso_date_not_empty (t : Z) : iso_date t <> "".
Proof.
  unfold iso_date. destruct (civil_from_days (t / msPerDay)) as [[y m] d].
  unfold iso_year. destruct ((0 <=? y) && (y <=? 9999)); [|destruct (y <? 0)];
    simpl; discriminate.
Qed.

Lemma truthy_app (a b : string) : a <> "" -> truthy (VStr (a ++ b)) = true.
Proof. destruct a; [contradiction|]. reflexivity. Qed.

(** X13.  What the scan of server.js accepts as today's row: a numeric date
    is a match when it is a timestamp, in milliseconds, of today's UTC day,
    and a string date when it is today's date alone or followed by [T] and
    anything.  The timestamp 0 is no match on any day, being falsy. *)
Theorem scan_accepts_timestamps_of_today (env : Env) (entry : object) :
  valid_clock env ->
  (forall t, lookup entry "date" = VNum t ->
             t <> 0 -> Z.abs t <= 8640000000000000 ->
             t / msPerDay = now env / msPerDay ->
             ServerJs.entry_matches (date_parse env) (date_of env) entry = Return true)
  /\ (forall rest, lookup entry "date" = VStr (date_of env ++ rest) ->
                   rest = "" \/ (exists r, rest = String "T" r) ->
                   ServerJs.entry_matches (date_parse env) (date_of env) entry = Return true)
  /\ (lookup entry "date" = VNum 0 ->
      ServerJs.entry_matches (date_parse env) (date_of env) entry = Return false).
Proof.
  intros Hclock.
  assert (Hdate : date_of env = iso_date (now env)) by apply split_iso_of_time.
  split; [|split].
  - intros t Hd Ht Hrange Hday. unfold ServerJs.entry_matches. rewrite Hd.
    assert (Ez : (t =? 0) = false) by (apply Z.eqb_neq; exact Ht).
    cbn [truthy]. rewrite Ez. cbn [negb time_value]. unfold TimeClip.
    apply Z.leb_le in Hrange. rewrite Hrange. cbn [toISOString].
    rewrite split_iso_of_time, Hdate. unfold iso_date. rewrite Hday.
    rewrite String.eqb_refl. reflexivity.
  - intros rest Hd Hrest. unfold ServerJs.entry_matches. rewrite Hd.
    rewrite truthy_app by (rewrite Hdate; apply iso_date_not_empty).
    cbn [negb].
    assert (Hcut : split_T_0 (date_of env ++ rest) = date_of env).
    { rewrite split_T_0_app by (rewrite Hdate; apply iso_date_no_T).
      destruct Hrest as [->|[r ->]]; simpl; apply string_app_nil_r. }
    rewrite Hcut, String.eqb_refl. reflexivity.
  - intros Hd. unfold ServerJs.entry_matches. rewrite Hd. reflexivity.
Qed.

Lemma scan_accepts_timestamps_of_today_witness :
  ServerJs.entry_matches (fun _ => None) "2024-01-15"
    [("date", VNum 1705359599999); ("movie", VNum 550)] = Return true.
Proof.
  assert (Hclock : valid_clock World.empty).
  { unfold valid_clock. simpl. unfold Sample.noon. lia. }
  destruct (scan_accepts_timestamps_of_today World.empty
              [("date", VNum 1705359599999); ("movie", VNum 550)] Hclock) as [H _].
  apply (H 1705359599999).
  - reflexivity.
  - discriminate.
  - simpl. lia.
  - reflexivity.
Defined.

(** ** Beyond the claims: start and [GET /test-db] *)

Lemma truthy_of_env (v : option string) :
  truthy (Startup.of_env v) = true <-> exists s, v = Some s /\ s <> "".
Proof.
  destruct v as [s|]; simpl.
  - rewrite negb_true_iff, String.eqb_neq. split.
    + intros H. exists s. auto.
    + intros [s' [E H]]. inversion E. subst. exact H.
  - split; [discriminate | intros [s [E _]]; discriminate].
Qed.

(** X14.  The server listens only when [SUPABASE_URL], [SUPABASE_ANON_KEY]
    and [TMDB_API_KEY] are all set and non-empty, with that key for the
    handlers and the port [PORT], or 3000 when [PORT] is unset or empty.
    Every exit the module makes itself has code 1, and a missing or empty
    database address or key is reported first, whatever the rest of the
    environment holds. *)
Theorem startup_needs_all_credentials (process_env : string -> option string)
    (createClient : value -> value -> bool) :
  (forall PORT key,
      Startup.main process_env createClient = Startup.Listen PORT key ->
      (exists url, process_env "SUPABASE_URL" = Some url /\ url <> "")
      /\ (exists anon, process_env "SUPABASE_ANON_KEY" = Some anon /\ anon <> "")
      /\ (exists k, process_env "TMDB_API_KEY" = Some k /\ k <> "" /\ key = VStr k)
      /\ ((exists p, process_env "PORT" = Some p /\ p <> "" /\ PORT = VStr p)
          \/ ((process_env "PORT" = None \/ process_env "PORT" = Some "")
              /\ PORT = VNum 3000)))
  /\ (forall code logged,
         Startup.main process_env createClient = Startup.Exit code logged -> code = 1)
  /\ (truthy (Startup.of_env (process_env "SUPABASE_URL")) = false
      \/ truthy (Startup.of_env (process_env "SUPABASE_ANON_KEY")) = false ->
      Startup.main process_env createClient = Startup.Exit 1 Startup.SUPABASE_MISSING).
Proof.
  unfold Startup.main. split; [|split].
  - intros PORT key.
    destruct (truthy (Startup.of_env (process_env "SUPABASE_URL"))) eqn:E1;
      [|discriminate].
    destruct (truthy (Startup.of_env (process_env "SUPABASE_ANON_KEY"))) eqn:E2;
      [|discriminate].
    cbn [negb orb].
    destruct (createClient _ _); [|discriminate]. cbn [negb].
    destruct (truthy (Startup.of_env (process_env "TMDB_API_KEY"))) eqn:E3;
      [|discriminate].
    cbn [negb]. intros H. inversion H as [[HP Hk]].
    apply truthy_of_env in E1, E2, E3.
    split; [exact E1|]. split; [exact E2|]. split.
    + destruct E3 as [k [Ek Hne]]. exists k. rewrite Ek. auto.
    + unfold or_else.
      destruct (truthy (Startup.of_env (process_env "PORT"))) eqn:E4.
      * apply truthy_of_env in E4. destruct E4 as [p [Ep Hne]].
        left. exists p. rewrite Ep. auto.
      * right. split; [|reflexivity].
        destruct (process_env "PORT") as [p|]; [|auto].
        right. simpl in E4. apply negb_false_iff, String.eqb_eq in E4. subst. reflexivity.
  - intros code logged.
    destruct (negb _ || negb _); [intros H; inversion H; reflexivity|].
    destruct (negb (createClient _ _)); [discriminate|].
    destruct (negb _); [intros H; inversion H; reflexivity | discriminate].
  - intros [H|H]; rewrite H; [reflexivity|].
    rewrite orb_true_r. reflexivity.
Qed.

Lemma startup_needs_all_credentials_witness :
  Startup.main (fun name => if (name =? "TMDB_API_KEY")%string then Some "k" else None)
    (fun _ _ => true)
  = Startup.Exit 1 Startup.SUPABASE_MISSING.
Proof.
  apply (proj2 (proj2 (startup_needs_all_credentials _ _))). left. reflexivity.
Defined.

(** ** Beyond the claims: how many calls *)

Lemma string_app_length (a b : string) :
  String.length (a ++ b) = (String.length a + String.length b)%nat.
Proof. induction a as [|x a IH]; simpl; [reflexivity | rewrite IH; reflexivity]. Qed.

Lemma details_is_not_credits (env : Env) (movieId : value) :
  Part001.details_request env movieId <> Part001.credits_request env movieId.
Proof.
  unfold Part001.details_request, Part001.credits_request. intros H.
  inversion H as [Hurl].
  assert (Hlen : String.length (ToString movieId)
                 = String.length (ToString movieId ++ "/credits")) by (rewrite <- Hurl; reflexivity).
  rewrite string_app_length in Hlen. simpl in Hlen. lia.
Qed.

Lemma serverjs_calls_shape (env : Env) :
  valid_clock env ->
  exists extra,
    calls ServerJs.mystery_movie env =
    (Db (ServerJs.primary_query "calendar" (date_of env))
       :: (if retry_needed env (date_of env)
           then [Db (ServerJs.primary_query "Calendar" (date_of env))] else [])
       ++ (if scan_needed env (date_of env) then [Db (ServerJs.all_query None)] else [])
       ++ extra)%list
    /\ (extra = [] \/ extra = [Db (ServerJs.all_query (Some 10%nat))]
        \/ exists r, extra = [Http r]).
Proof.
  intros Hclock.
  pose proof (select_entry_calls env (date_of env) []) as Hsel. simpl in Hsel.
  unfold calls. rewrite (serverjs_run env Hclock).
  destruct (ServerJs.select_entry (date_of env) env []) as [[[early|[d e]]|err] t];
    simpl in Hsel; subst t.
  - exists []. rewrite !app_nil_r. auto.
  - destruct (finish_shape (date_of env) d e env
                (Db (ServerJs.primary_query "calendar" (date_of env))
                   :: (if retry_needed env (date_of env)
                       then [Db (ServerJs.primary_query "Calendar" (date_of env))] else [])
                   ++ (if scan_needed env (date_of env)
                       then [Db (ServerJs.all_query None)] else []))%list)
      as [extra [Hx Hshape]].
    exists extra. rewrite Hx. split; [simpl; rewrite <- app_assoc; reflexivity|].
    destruct Hshape as [H|[[H _]|[row [_ [_ [_ H]]]]]]; eauto.
  - exists []. rewrite on_error_calls, !app_nil_r. auto.
Qed.

(** X16.  No handler repeats a call, and each stays within a fixed number of
    them: two for the handler of part_000, four for the handler of server.js
    (the primary query, the retry, the scan, and either the sample query or
    the request to the metadata service), three for [/api/mystery_movie], one
    for [/api/search], two for [/api/movie/:movie_id]. *)
Theorem no_call_is_repeated (env : Env) :
  (NoDup (calls Part000.mystery_movie env)
   /\ (List.length (calls Part000.mystery_movie env) <= 2)%nat)
  /\ (NoDup (calls ServerJs.mystery_movie env)
      /\ (List.length (calls ServerJs.mystery_movie env) <= 4)%nat
      /\ (List.length (http_requests (calls ServerJs.mystery_movie env)) <= 1)%nat)
  /\ (NoDup (calls Part001.api_mystery_movie env)
      /\ (List.length (calls Part001.api_mystery_movie env) <= 3)%nat)
  /\ (forall query,
         NoDup (calls (Part001.api_search query) env)
         /\ (List.length (calls (Part001.api_search query) env) <= 1)%nat)
  /\ (forall movie_id,
         NoDup (calls (Part001.api_movie movie_id) env)
         /\ (List.length (calls (Part001.api_movie movie_id) env) <= 2)%nat).
Proof.
  assert (Hpair : forall v, NoDup [Http (Part001.details_request env v);
                                   Http (Part001.credits_request env v)]).
  { intros v. constructor; [|constructor; [intros []|constructor]].
    intros [H|[]]. apply (details_is_not_credits env v). congruence. }
  split; [|split; [|split; [|split]]].
  - destruct (clock_dec env) as [Hclock|Hclock].
    + rewrite (part000_calls env Hclock).
      destruct (data (supabase_row env _)) as [row|];
        [destruct (has_movie _)|]; (split; [|simpl; lia]);
        repeat constructor; simpl; intuition discriminate.
    + destruct (invalid_clock_answers env Hclock) as [E _]. unfold calls. rewrite E.
      split; [constructor | simpl; lia].
  - destruct (clock_dec env) as [Hclock|Hclock].
    + destruct (serverjs_calls_shape env Hclock) as [extra [Hcalls Hshape]].
      rewrite Hcalls.
      destruct (retry_needed env (date_of env)), (scan_needed env (date_of env));
        destruct Hshape as [->|[->|[r ->]]]; simpl;
        (split; [|split; lia]);
        repeat constructor; simpl; intuition discriminate.
    + destruct (invalid_clock_answers env Hclock) as [_ [E _]]. unfold calls. rewrite E.
      split; [constructor | simpl; lia].
  - destruct (clock_dec env) as [Hclock|Hclock].
    + rewrite (api_mystery_movie_calls env Hclock).
      destruct (data (supabase_row env _)) as [row|];
        [destruct (has_movie _)|]; (split; [|simpl; lia]);
        try (repeat constructor; simpl; intuition discriminate).
      constructor; [simpl; intuition discriminate | apply Hpair].
    + destruct (invalid_clock_answers env Hclock) as [_ [_ E]]. unfold calls. rewrite E.
      split; [constructor | simpl; lia].
  - intros query. rewrite api_search_calls.
    destruct (truthy query); (split; [|simpl; lia]);
      repeat constructor; simpl; intuition.
  - intros movie_id. rewrite api_movie_calls.
    destruct (truthy _); (split; [|simpl; lia]); [apply Hpair | constructor].
Qed.

(** ** The bodies of the successful answers, as sent *)

Lemma sent_fields_cons (k : string) (x : value) (o : object) :
  sent_fields ((k, x) :: o)
  = if defined x then (k, serialize x) :: sent_fields o else sent_fields o.
Proof. destruct x; reflexivity. Qed.

Lemma has_key_sent_set_same (o : object) (k : string) (c : value) :
  defined c = true -> has_key (sent_fields (set o k c)) k = true.
Proof.
  intros Hc. induction o as [|[k0 v0] o IH]; simpl set.
  - rewrite sent_fields_cons, Hc. simpl. rewrite String.eqb_refl. reflexivity.
  - destruct (k0 =? k)%string eqn:E.
    + rewrite sent_fields_cons, Hc. simpl. rewrite E. reflexivity.
    + rewrite sent_fields_cons. destruct (defined v0); [|exact IH].
      simpl. rewrite E. exact IH.
Qed.

Lemma has_key_sent_set_other (o : object) (k k' : string) (w : value) :
  k' <> k -> has_key (sent_fields (set o k' w)) k = has_key (sent_fields o) k.
Proof.
  intros Hne. apply String.eqb_neq in Hne.
  induction o as [|[k0 v0] o IH]; simpl set.
  - rewrite sent_fields_cons. destruct (defined w); [|reflexivity].
    simpl. rewrite Hne. reflexivity.
  - destruct (k0 =? k')%string eqn:E.
    + apply String.eqb_eq in E. subst k0. rewrite !sent_fields_cons.
      destruct (defined w), (defined v0); simpl; rewrite ?Hne; reflexivity.
    + rewrite !sent_fields_cons. destruct (defined v0); [|exact IH].
      simpl. rewrite IH. reflexivity.
Qed.

(** The enriched movie, as sent, has [cast] and [crew] when the credits
    define them. *)
Lemma sent_enriched (o : object) (c w : value) (k : string) :
  k = "cast" \/ k = "crew" ->
  defined (lookup (set (set o "cast" c) "crew" w) k) = true ->
  has_key (sent_fields (set (set o "cast" c) "crew" w)) k = true.
Proof.
  intros [-> | ->].
  - rewrite lookup_set_other by discriminate. rewrite lookup_set_same. intros Hc.
    rewrite has_key_sent_set_other by discriminate.
    apply has_key_sent_set_same. exact Hc.
  - rewrite lookup_set_same. apply has_key_sent_set_same.
Qed.

Lemma sent_legacy_body (d : string) (x : value) :
  defined x = true ->
  keys (sent_fields [("date", VStr d); ("movie", x)]) = ["date"; "movie"].
Proof. intros H. rewrite !sent_fields_cons, H. reflexivity. Qed.

Lemma sent_api_body (d : string) (row movie : object) :
  keys (sent_fields [("date", VStr d);
                     ("quote_en", lookup row "quote_en");
                     ("quote_pl", lookup row "quote_pl");
                     ("description", lookup row "description");
                     ("movie", VObj movie)])
  = ("date" :: filter (fun k => defined (lookup row k))
                      ["quote_en"; "quote_pl"; "description"] ++ ["movie"])%list.
Proof.
  rewrite !sent_fields_cons. cbn [filter defined].
  destruct (defined (lookup row "quote_en")), (defined (lookup row "quote_pl")),
           (defined (lookup row "description")); reflexivity.
Qed.

Lemma serverjs_primary_row (env : Env) (row : object) :
  supabase_row env (ServerJs.primary_query "calendar" (date_of env))
  = {| data := Some row; error := None |} ->
  run (ServerJs.select_entry (date_of env)) env
  = (Return (inr (Some row, None)),
     [Db (ServerJs.primary_query "calendar" (date_of env))]).
Proof.
  intros Hrow.
  assert (Hr : retry_needed env (date_of env) = false).
  { unfold retry_needed. rewrite Hrow. reflexivity. }
  unfold run, ServerJs.select_entry, bind at 1. rewrite lookup_today_run.
  unfold settled. rewrite Hr, Hrow. reflexivity.
Qed.

(** C7, as amended.  An answer without [error] field is a success, and each
    handler does succeed: when today's row has a truthy identifier and the
    metadata service answers.  On success the body of the legacy
    [GET /mystery_movie], in part_000 and in server.js, has exactly the fields
    [date] and [movie], today's date and the payload of the metadata service,
    in the object handed to [res.json] and in the JSON sent.  On success the
    object [GET /api/mystery_movie] hands to [res.json] has exactly the fields
    [date], [quote_en], [quote_pl], [description] and [movie], the last being
    the object returned by [fetchMovieDetails] with its [cast] and [crew]; in
    the JSON sent, [quote_en], [quote_pl] and [description] are there for the
    columns the calendar row has and left out for those it lacks, and [movie]
    carries [cast] and [crew] when the credits define them.  While the clock
    is within the years 0 to 9999 the date has the form YYYY-MM-DD. *)
Theorem mystery_movie_bodies (env : Env) :
  (forall resp,
      has_key (body resp) "error" = false ->
      answer Part000.mystery_movie env = Return resp
      \/ answer ServerJs.mystery_movie env = Return resp ->
      code resp = 200
      /\ keys (body resp) = ["date"; "movie"]
      /\ lookup (body resp) "date" = VStr (date_of env)
      /\ exists req upstream,
          tmdb env req = inr upstream
          /\ lookup (body resp) "movie" = rdata upstream
          /\ (defined (rdata upstream) = true -> keys (sent resp) = ["date"; "movie"]))
  /\ (forall resp,
         has_key (body resp) "error" = false ->
         answer Part001.api_mystery_movie env = Return resp ->
         code resp = 200
         /\ keys (body resp) = ["date"; "quote_en"; "quote_pl"; "description"; "movie"]
         /\ lookup (body resp) "date" = VStr (date_of env)
         /\ exists row movie,
             fst (run (Part001.fetchMovieDetails (lookup row "movie")) env) = Return movie
             /\ has_key movie "cast" = true /\ has_key movie "crew" = true
             /\ lookup (body resp) "quote_en" = lookup row "quote_en"
             /\ lookup (body resp) "quote_pl" = lookup row "quote_pl"
             /\ lookup (body resp) "description" = lookup row "description"
             /\ lookup (body resp) "movie" = VObj movie
             /\ keys (sent resp)
                = ("date" :: filter (fun k => defined (lookup row k))
                                    ["quote_en"; "quote_pl"; "description"]
                          ++ ["movie"])%list
             /\ (forall k, k = "cast" \/ k = "crew" ->
                           defined (lookup movie k) = true ->
                           has_key (sent_fields movie) k = true))
  /\ (valid_clock env ->
      (forall row upstream,
          supabase_row env (calendar_query "movie" (date_of env))
          = {| data := Some row; error := None |} ->
          truthy (lookup row "movie") = true ->
          tmdb env (legacy_request env (lookup row "movie")) = inr upstream ->
          answer Part000.mystery_movie env
          = Return (json 200 [("date", VStr (date_of env)); ("movie", rdata upstream)]))
      /\ (forall row v upstream,
             supabase_row env (ServerJs.primary_query "calendar" (date_of env))
             = {| data := Some row; error := None |} ->
             first_truthy row candidates = Some v ->
             tmdb env (legacy_request env v) = inr upstream ->
             answer ServerJs.mystery_movie env
             = Return (json 200 [("date", VStr (date_of env)); ("movie", rdata upstream)]))
      /\ (forall row md cr details credits,
             supabase_row env (calendar_query "*" (date_of env))
             = {| data := Some row; error := None |} ->
             truthy (lookup row "movie") = true ->
             tmdb env (Part001.details_request env (lookup row "movie")) = inr md ->
             tmdb env (Part001.credits_request env (lookup row "movie")) = inr cr ->
             rdata md = VObj details ->
             rdata cr = VObj credits ->
             answer Part001.api_mystery_movie env
             = Return (json 200 [("date", VStr (date_of env));
                                 ("quote_en", lookup row "quote_en");
                                 ("quote_pl", lookup row "quote_pl");
                                 ("description", lookup row "description");
                                 ("movie",
                                  VObj (set (set details "cast" (lookup credits "cast"))
                                          "crew" (lookup credits "crew")))])))
  /\ (-62167219200000 <= now env <= 253402300799999 ->
      is_YYYY_MM_DD (date_of env) = true).
Proof.
  split; [|split; [|split]].
  - intros resp Hok H.
    assert (Hs : exists req upstream,
               tmdb env req = inr upstream
               /\ resp = json 200 [("date", VStr (date_of env)); ("movie", rdata upstream)]).
    { destruct H as [H|H];
        [apply part000_success | apply serverjs_success]; assumption. }
    destruct Hs as [req [up [Hup ->]]].
    repeat split; try reflexivity. exists req, up.
    split; [exact Hup|]. split; [reflexivity|].
    intros Hdef. unfold sent. apply sent_legacy_body. exact Hdef.
  - intros resp Hok H.
    destruct (api_mystery_movie_success env resp H Hok)
      as [row [movie [Hf [Hcast [Hcrew ->]]]]].
    repeat split; try reflexivity. exists row, movie.
    split; [exact Hf|]. split; [exact Hcast|]. split; [exact Hcrew|].
    repeat (split; [reflexivity|]). split.
    + unfold sent. apply sent_api_body.
    + destruct (fetchMovieDetails_returns env (lookup row "movie") [] movie Hf)
        as [md [cr [cast [crew [_ [_ [_ [_ [-> _]]]]]]]]].
      intros k. apply sent_enriched.
  - intros Hclock. split; [|split].
    + intros row up Hrow Ht Hup. unfold answer. rewrite (part000_run env Hclock).
      cbv zeta. rewrite Hrow. cbn [data error]. rewrite Ht, Hup. reflexivity.
    + intros row v up Hrow Hv Hup. unfold answer.
      pose proof (serverjs_primary_row env row Hrow) as Hsel. unfold run in Hsel.
      rewrite (serverjs_run env Hclock), Hsel.
      pose proof (movieId_of_priority row) as P. rewrite Hv in P. destruct P as [Hid Ht].
      destruct (finish_outcome (date_of env) (Some row) None env
                  [Db (ServerJs.primary_query "calendar" (date_of env))])
        as [[e' [H _]]|[[H _]|[[row' [H [_ [Hf _]]]]|[row' [H [_ [_ Hrun]]]]]]];
        try discriminate.
      * inversion H. subst row'. rewrite Hid, Ht in Hf. discriminate.
      * inversion H. subst row'. rewrite Hid, Hup in Hrun. rewrite Hrun. reflexivity.
    + intros row md cr details credits Hrow Ht Hd Hc Hmd Hcr. unfold answer.
      rewrite (api_mystery_movie_run env Hclock). cbv zeta. rewrite Hrow.
      cbn [data error]. rewrite Ht.
      pose proof (fetchMovieDetails_resolved env (lookup row "movie")
                    [Db (calendar_query "*" (date_of env))] md cr Hd Hc) as Hf.
      rewrite Hmd, Hcr in Hf. simpl in Hf.
      destruct (Part001.fetchMovieDetails (lookup row "movie") env _) as [[m|e] t];
        simpl in Hf; inversion Hf. subst. reflexivity.
  - apply date_of_shape.
Qed.

Lemma mystery_movie_bodies_witness :
  answer Part000.mystery_movie
    (Sample.with_row [("date", VStr "2024-01-15"); ("movie", VNum 550)])
  = Return (json 200 [("date", VStr "2024-01-15"); ("movie", Sample.fight_club)])
  /\ answer ServerJs.mystery_movie
       (Sample.with_row [("date", VStr "2024-01-15"); ("movie", VNum 550)])
     = Return (json 200 [("date", VStr "2024-01-15"); ("movie", Sample.fight_club)])
  /\ keys (sent (json 200 [("date", VStr "2024-01-15"); ("movie", Sample.fight_club)]))
     = ["date"; "movie"]
  /\ exists resp,
      answer Part001.api_mystery_movie
        (Sample.with_row [("date", VStr "2024-01-15"); ("movie", VNum 550);
                          ("quote_en", VStr "The first rule"); ("quote_pl", VNull);
                          ("description", VStr "1999")]) = Return resp
      /\ keys (sent resp) = ["date"; "quote_en"; "quote_pl"; "description"; "movie"].
Proof.
  assert (Hclock : forall row, valid_clock (Sample.with_row row)).
  { intros row. unfold valid_clock. simpl. unfold Sample.noon. lia. }
  set (row := [("date", VStr "2024-01-15"); ("movie", VNum 550)]).
  destruct (mystery_movie_bodies (Sample.with_row row)) as [Hlegacy [_ [Hex _]]].
  destruct (Hex (Hclock row)) as [H0 [Hjs _]].
  pose proof (H0 row {| status := 200; rdata := Sample.fight_club |}
                eq_refl eq_refl eq_refl) as E0.
  pose proof (Hjs row (VNum 550) {| status := 200; rdata := Sample.fight_club |}
                eq_refl eq_refl eq_refl) as Ejs.
  split; [exact E0|]. split; [exact Ejs|]. split.
  - destruct (Hlegacy (json 200 [("date", VStr "2024-01-15"); ("movie", Sample.fight_club)])
                eq_refl (or_introl E0))
      as [_ [_ [_ [req [up [Hup [Hm Hsent]]]]]]].
    apply Hsent. simpl in Hm. rewrite <- Hm. reflexivity.
  - eexists. split; reflexivity.
Defined.

(** C7 as written fails on [GET /api/mystery_movie] for a calendar row
    without the display columns: the answer is a success, and the JSON sent
    has the fields [date] and [movie] only. *)
Lemma api_body_without_display_columns :
  exists resp,
    answer Part001.api_mystery_movie
      (Sample.with_row [("date", VStr "2024-01-15"); ("movie", VNum 550)]) = Return resp
    /\ code resp = 200
    /\ has_key (body resp) "error" = false
    /\ keys (sent resp) = ["date"; "movie"]
    /\ has_key (sent resp) "quote_en" = false.
Proof.
  eexists. split; [reflexivity|]. repeat split.
Qed.
